(** * aiseo: the staged article pipeline, its validator and its link planner

    A shallow embedding of [app/services/seo_validator.py],
    [app/services/link_planner.py], [app/services/serp_client.py],
    [app/domain/agents.py], [app/models/orm.py] and [app/domain/pipeline.py],
    followed by the properties of the pipeline that were checked on it.

    Conventions of the embedding.
    - A Python [str] is a [string]; a character stands for the code point of
      the same number (0..255).  [isspace] and [lower] are Python's on that
      range.
    - A Python [int] is a [Z].  The two products with a [float] constant in
      the validator and in the draft stage are computed in binary64 with
      round-to-nearest-even, written out on integers ([Py.int_mul_float]).
    - An exception is [Raise msg], where [msg] is [str(e)].
    - Code of libraries (pydantic's validation of provider output, the search
      API, the chat completion API, the clock) is not part of the repository
      and is taken as a parameter ([Lib], [Env]). *)

From Stdlib Require Import ZArith List String Ascii Bool Lia DecimalString.
From stdpp Require Import base gmap strings.
Import ListNotations.

Local Open Scope string_scope.
Local Open Scope Z_scope.

(* [simpl] unfolds [++] on a text that starts with a character. *)
#[local] Arguments String.append !s1 s2 : simpl nomatch.

(** ** Python primitives *)

Module Py.

(** An exception carries the text of [str(e)]. *)
Inductive Result (A : Type) : Type :=
| Ok (a : A)
| Raise (msg : string).
Arguments Ok {A} a.
Arguments Raise {A} msg.

Definition newline : ascii := "010"%char.
Definition dquote : string := String "034"%char EmptyString.

(** The text ["\n"]. *)
Definition nl : string := String newline EmptyString.

(** ["..."] inside a Python literal. *)
Definition quoted (s : string) : string := dquote ++ s ++ dquote.

(** [c.isspace()], also the class [\s] of [re] on [str] patterns. *)
Definition isspace (c : ascii) : bool :=
  let n := nat_of_ascii c in
  ((9 <=? n) && (n <=? 13) || (28 <=? n) && (n <=? 32)
   || (n =? 133) || (n =? 160))%nat.

Definition lower_char (c : ascii) : ascii :=
  let n := nat_of_ascii c in
  if ((65 <=? n) && (n <=? 90)
      || (192 <=? n) && (n <=? 222) && negb (n =? 215))%nat
  then ascii_of_nat (n + 32) else c.

(** [s.lower()] *)
Fixpoint lower (s : string) : string :=
  match s with
  | EmptyString => EmptyString
  | String c s' => String (lower_char c) (lower s')
  end.

Definition is_empty (s : string) : bool :=
  match s with EmptyString => true | _ => false end.

(** [s.split()]: the maximal runs of non-whitespace characters.  [cur] is
    the word being read. *)
Fixpoint split_from (cur : string) (s : string) : list string :=
  match s with
  | EmptyString => if is_empty cur then [] else [cur]
  | String c s' =>
      if isspace c
      then (if is_empty cur then split_from EmptyString s'
            else cur :: split_from EmptyString s')
      else split_from (cur ++ String c EmptyString) s'
  end.

Definition split (s : string) : list string := split_from EmptyString s.

(** [needle in hay] on strings: [needle] occurs as a substring. *)
Fixpoint str_in (needle hay : string) {struct hay} : bool :=
  if String.prefix needle hay then true
  else match hay with
       | EmptyString => false
       | String _ hay' => str_in needle hay'
       end.

(** [sep.join(l)] *)
Fixpoint join (sep : string) (l : list string) : string :=
  match l with
  | [] => EmptyString
  | [x] => x
  | x :: l' => x ++ sep ++ join sep l'
  end.

(** The lines of a multi-line literal. *)
Definition lines (l : list string) : string := join nl l.

(** [str(n)] for an [int]. *)
Definition str (n : Z) : string := NilZero.string_of_int (Z.to_int n).

(** [len(l)] *)
Definition len {A : Type} (l : list A) : Z := Z.of_nat (List.length l).

(** [l[:n]] for [n >= 0]. *)
Definition upto {A : Type} (n : nat) (l : list A) : list A := firstn n l.

(** [set(l)] of strings, as a duplicate-free list. *)
Definition set (l : list string) : list string := nodup string_dec l.

Definition mem (x : string) (l : list string) : bool :=
  existsb (String.eqb x) l.

(** [a & b] on sets of strings. *)
Definition inter (a b : list string) : list string :=
  List.filter (fun x => mem x b) a.

(** *** binary64, as much of it as [int(n * c)] needs

    A finite double is [m * 2^e] with [|m| < 2^53].  [round53 n e] rounds
    the exact value [n * 2^e] ([n >= 0]) to 53 significant bits, ties to
    even. *)
Definition round53 (n e : Z) : Z * Z :=
  let bits := Z.log2 n + 1 in
  if bits <=? 53 then (n, e)
  else
    let k := bits - 53 in
    let q := Z.shiftr n k in
    let r := Z.land n (Z.ones k) in
    let half := Z.shiftl 1 (k - 1) in
    let q' := if (half <? r) || ((r =? half) && Z.odd q) then q + 1 else q in
    (q', e + k).

(** The value [m * 2^e] is at least [2^1024]: it does not fit a double. *)
Definition too_large (m e : Z) : bool :=
  (0 <? m) && (1024 <? Z.log2 m + 1 + e).

(** [int(n * c)] for an [int] [n] and the double [c = cm * 2^ce > 0]:
    [n] is converted to a double ([OverflowError] when it does not fit),
    the product is rounded once, and [int()] truncates toward zero
    ([OverflowError] on an infinite product). *)
Definition int_mul_float (n cm ce : Z) : Result Z :=
  let '(m1, e1) := round53 (Z.abs n) 0 in
  if too_large m1 e1 then Raise "int too large to convert to float"
  else
    let '(m2, e2) := round53 (m1 * cm) (e1 + ce) in
    if too_large m2 e2 then Raise "cannot convert float infinity to integer"
    else
      let mag := if 0 <=? e2 then Z.shiftl m2 e2 else Z.shiftr m2 (- e2) in
      Ok (Z.sgn n * mag).

(** The doubles nearest to 0.8 and 1.2. *)
Definition c0_8 : Z * Z := (7205759403792794, -53).
Definition c1_2 : Z * Z := (5404319552844595, -52).

(** [int(n * 0.8)] and [int(n * 1.2)] *)
Definition int_mul_0_8 (n : Z) : Result Z := int_mul_float n (fst c0_8) (snd c0_8).
Definition int_mul_1_2 (n : Z) : Result Z := int_mul_float n (fst c1_2) (snd c1_2).

End Py.
Export Py.


(** ** app/models/schemas.py *)

(** A JSON value: what [json.loads] hands to the code, and the values of the
    free-form [structured_data] dict. *)
#[local] Unset Elimination Schemes.
Inductive Json : Type :=
| JNull
| JBool (b : bool)
| JInt (n : Z)
| JStr (s : string)
| JList (l : list Json)
| JObj (fields : list (string * Json)).
#[local] Set Elimination Schemes.

Inductive JobStatus : Type := pending | running | completed | failed.

Module JobStatus_.
(** [status.value] *)
Definition value (s : JobStatus) : string :=
  match s with
  | pending => "pending"
  | running => "running"
  | completed => "completed"
  | failed => "failed"
  end.
End JobStatus_.

Inductive Language : Type := en.

Module SERPResult.
Record t : Type := mk { rank : Z; url : string; title : string; snippet : string }.
End SERPResult.

Module SERPAnalysis.
Record t : Type := mk {
  primary_keyword : string;
  secondary_keywords : list string;
  topics : list string;
  faqs : list string }.
End SERPAnalysis.

Module OutlineSection.
Record t : Type := mk {
  heading_level : Z;
  heading : string;
  slug : string;
  summary : string }.
End OutlineSection.

Module Outline.
Record t : Type := mk { title : string; sections : list OutlineSection.t }.
End Outline.

Module InternalLinkSuggestion.
Record t : Type := mk { anchor_text : string; target_slug : string }.
End InternalLinkSuggestion.

Module ExternalReference.
Record t : Type := mk {
  title : string;
  url : string;
  suggested_section_slug : string;
  context_reason : string }.
End ExternalReference.

Module SEOInfo.
Record t : Type := mk {
  title_tag : string;
  meta_description : string;
  primary_keyword : string;
  secondary_keywords : list string;
  word_count_target : Z;
  estimated_word_count : option Z }.

(** [seo.estimated_word_count = n] *)
Definition set_estimated_word_count (seo : t) (n : Z) : t :=
  mk (title_tag seo) (meta_description seo) (primary_keyword seo)
     (secondary_keywords seo) (word_count_target seo) (Some n).
End SEOInfo.

Module Article.
Record t : Type := mk {
  h1 : string;
  body_markdown : string;
  seo : SEOInfo.t;
  internal_links : list InternalLinkSuggestion.t;
  external_references : list ExternalReference.t;
  structured_data : list (string * Json) }.

Definition set_seo (a : t) (s : SEOInfo.t) : t :=
  mk (h1 a) (body_markdown a) s (internal_links a) (external_references a)
     (structured_data a).

(** [article.internal_links = l] *)
Definition set_internal_links (a : t) (l : list InternalLinkSuggestion.t) : t :=
  mk (h1 a) (body_markdown a) (seo a) l (external_references a)
     (structured_data a).

(** [article.external_references = l] *)
Definition set_external_references (a : t) (l : list ExternalReference.t) : t :=
  mk (h1 a) (body_markdown a) (seo a) (internal_links a) l
     (structured_data a).
End Article.

Module ArticleJobCreate.
Record t : Type := mk {
  topic : string;
  target_word_count : Z;
  language : Language }.
End ArticleJobCreate.

(** ** app/services/seo_validator.py *)

Module SEOValidator.

(** [#{n}]: exactly [n] hash signs. *)
Fixpoint hashes (n : nat) (s : string) : option string :=
  match n with
  | O => Some s
  | S n' =>
      match s with
      | String "#"%char s' => hashes n' s'
      | _ => None
      end
  end.

(** [\s+] followed by the first character of [(.+)], with the engine's
    backtracking: the longest run of whitespace after which a character
    other than a newline follows.  The result starts at that character. *)
Fixpoint spaces_then_any (s : string) : option string :=
  match s with
  | EmptyString => None
  | String c s' =>
      if isspace c then
        match spaces_then_any s' with
        | Some r => Some r
        | None =>
            match s' with
            | String d _ => if Ascii.eqb d newline then None else Some s'
            | EmptyString => None
            end
        end
      else None
  end.

(** [(.+)$]: the characters up to the next newline or the end. *)
Fixpoint line (s : string) : string :=
  match s with
  | EmptyString => EmptyString
  | String c s' =>
      if Ascii.eqb c newline then EmptyString else String c (line s')
  end.

(** One attempt of [^#{level}\s+(.+)$] at a position where [^] holds: the
    captured group and the number of characters the match spans. *)
Definition match_heading (level : nat) (s : string) : option (string * nat) :=
  match hashes level s with
  | None => None
  | Some s1 =>
      match spaces_then_any s1 with
      | None => None
      | Some s2 =>
          let g := line s2 in
          Some (g, (String.length s - String.length s2 + String.length g)%nat)
      end
  end.

(** [re.findall(pattern, markdown, re.MULTILINE)], left to right without
    overlap.  [bol]: the position is the start of the text or follows a
    newline; [skip]: characters left of the match found last. *)
Fixpoint findall (level : nat) (bol : bool) (skip : nat) (s : string)
  : list string :=
  match s with
  | EmptyString => []
  | String c s' =>
      let bol' := Ascii.eqb c newline in
      match skip with
      | S k => findall level bol' k s'
      | O =>
          if bol then
            match match_heading level s with
            | Some (g, n) => g :: findall level bol' (Nat.pred n) s'
            | None => findall level bol' O s'
            end
          else findall level bol' O s'
      end
  end.

Definition _extract_headings (markdown : string) (level : nat) : list string :=
  findall level true O markdown.

(** The loop of [_check_keyword_match].  [len(matching_words) /
    len(keyword_words) >= 0.5] is a comparison of a correctly rounded
    quotient of two list lengths with the double 0.5, that is
    [2 * len(matching_words) >= len(keyword_words)]. *)
Fixpoint _check_keyword_match_loop (keyword : string)
    (keyword_words : list string) (headings : list string) : bool :=
  match headings with
  | [] => false
  | heading :: rest =>
      let heading_lower := lower heading in
      if str_in keyword heading_lower then true
      else
        let heading_words := set (split heading_lower) in
        let matching_words := inter keyword_words heading_words in
        if len keyword_words <=? 2 * len matching_words then true
        else _check_keyword_match_loop keyword keyword_words rest
  end.

Definition _check_keyword_match (keyword : string) (headings : list string)
  : bool :=
  let keyword_words := set (split keyword) in
  match keyword_words with
  | [] => false
  | _ => _check_keyword_match_loop keyword keyword_words headings
  end.

(** [errors.append(e)] when [c] holds. *)
Definition append_if (c : bool) (e : string) (errors : list string)
  : list string :=
  if c then (errors ++ [e])%list else errors.

Definition word_count_of (body : string) : Z := len (split body).

(** The two messages of the word-count check. *)
Definition below_minimum (word_count min_words target : Z) : string :=
  "Word count " ++ str word_count ++ " is below minimum " ++ str min_words
    ++ " (80% of target " ++ str target ++ ")".

Definition exceeds_maximum (word_count max_words target : Z) : string :=
  "Word count " ++ str word_count ++ " exceeds maximum " ++ str max_words
    ++ " (120% of target " ++ str target ++ ")".

Definition too_few_internal_links (n : Z) : string :=
  "Expected at least 3 internal links, found " ++ str n.

(** [validate(article)]: the outcome and the article as the call leaves
    it. *)
Definition validate (article : Article.t)
  : Result (list string) * Article.t :=
  let errors : list string := [] in
  let word_count := word_count_of (Article.body_markdown article) in
  let article :=
    Article.set_seo article
      (SEOInfo.set_estimated_word_count (Article.seo article) word_count) in
  let primary_keyword := SEOInfo.primary_keyword (Article.seo article) in
  let primary_keyword_lower := lower primary_keyword in
  let errors :=
    append_if (negb (str_in primary_keyword_lower (lower (Article.h1 article))))
      ("Primary keyword '" ++ primary_keyword ++ "' not found in H1") errors in
  let first_150_words :=
    join " " (upto 150 (split (Article.body_markdown article))) in
  let errors :=
    append_if (negb (str_in primary_keyword_lower (lower first_150_words)))
      ("Primary keyword '" ++ primary_keyword
         ++ "' not found in first 150 words") errors in
  let h2_headings := _extract_headings (Article.body_markdown article) 2 in
  let h2_contains_keyword :=
    _check_keyword_match primary_keyword_lower h2_headings in
  let errors :=
    append_if (negb h2_contains_keyword && (0 <? len h2_headings))
      ("Primary keyword '" ++ primary_keyword
         ++ "' not found in any H2 heading (or close match)") errors in
  let target := SEOInfo.word_count_target (Article.seo article) in
  match int_mul_0_8 target with
  | Raise e => (Raise e, article)
  | Ok min_words =>
  match int_mul_1_2 target with
  | Raise e => (Raise e, article)
  | Ok max_words =>
      let errors :=
        if word_count <? min_words
        then (errors ++ [below_minimum word_count min_words target])%list
        else if max_words <? word_count
        then (errors ++ [exceeds_maximum word_count max_words target])%list
        else errors in
      let h1_count := len (_extract_headings (Article.body_markdown article) 1) in
      let errors :=
        append_if (negb (h1_count =? 1))
          ("Expected exactly 1 H1 heading, found " ++ str h1_count) errors in
      let h2_count := len h2_headings in
      let errors :=
        append_if (h2_count <? 3)
          ("Expected at least 3 H2 headings, found " ++ str h2_count) errors in
      let errors :=
        append_if (len (Article.internal_links article) <? 3)
          (too_few_internal_links (len (Article.internal_links article)))
          errors in
      let errors :=
        append_if (len (Article.external_references article) <? 2)
          ("Expected at least 2 external references, found "
             ++ str (len (Article.external_references article))) errors in
      (Ok errors, article)
  end
  end.

End SEOValidator.

(** ** app/services/link_planner.py *)

Module LinkPlanner.

Record Page : Type := mkPage { slug : string; topic : string }.

Definition INTERNAL_PAGES : list Page :=
  [ mkPage "seo-keyword-research-tools" "SEO keyword research tools";
    mkPage "content-optimization-checklist" "content optimization checklist";
    mkPage "remote-team-collaboration" "remote team collaboration tips" ].

Definition suggestion (page : Page) : InternalLinkSuggestion.t :=
  InternalLinkSuggestion.mk (topic page) (slug page).

(** [(article.h1 + " " + article.body_markdown).lower()] *)
Definition article_text_lower (article : Article.t) : string :=
  lower (Article.h1 article ++ " " ++ Article.body_markdown article).

Definition page_keywords (page : Page) : list string :=
  set (split (lower (topic page))).

Definition matches_serp (page : Page) (serp_analysis : SERPAnalysis.t) : bool :=
  existsb
    (fun topic =>
       existsb (fun keyword => str_in keyword (lower topic)) (page_keywords page))
    (SERPAnalysis.topics serp_analysis).

Definition matches_article (page : Page) (article : Article.t) : bool :=
  existsb (fun keyword => str_in keyword (article_text_lower article))
    (page_keywords page).

Definition page_matches (article : Article.t) (serp_analysis : SERPAnalysis.t)
    (page : Page) : bool :=
  matches_serp page serp_analysis || matches_article page article.

(** The first [for page in self.INTERNAL_PAGES] loop. *)
Fixpoint match_loop (article : Article.t) (serp_analysis : SERPAnalysis.t)
    (pages : list Page) (suggestions : list InternalLinkSuggestion.t)
  : list InternalLinkSuggestion.t :=
  match pages with
  | [] => suggestions
  | page :: rest =>
      if page_matches article serp_analysis page
      then match_loop article serp_analysis rest (suggestions ++ [suggestion page])%list
      else match_loop article serp_analysis rest suggestions
  end.

Definition has_slug (suggestions : list InternalLinkSuggestion.t) (s : string)
  : bool :=
  existsb (fun x => String.eqb (InternalLinkSuggestion.target_slug x) s)
    suggestions.

(** The [for] loop inside the [while]: it stops at three suggestions and
    appends the pages whose slug is not among them. *)
Fixpoint backfill_pass (pages : list Page)
    (suggestions : list InternalLinkSuggestion.t)
  : list InternalLinkSuggestion.t :=
  match pages with
  | [] => suggestions
  | page :: rest =>
      if 3 <=? len suggestions then suggestions
      else if negb (has_slug suggestions (slug page))
      then backfill_pass rest (suggestions ++ [suggestion page])%list
      else backfill_pass rest suggestions
  end.

(** The condition of the [while]. *)
Definition backfill_needed (suggestions : list InternalLinkSuggestion.t) : bool :=
  (len suggestions <? 3) && (len suggestions <? len INTERNAL_PAGES).

(** The [while] loop, iterated at most [fuel] times. *)
Fixpoint backfill (fuel : nat) (suggestions : list InternalLinkSuggestion.t)
  : list InternalLinkSuggestion.t :=
  match fuel with
  | O => suggestions
  | S fuel' =>
      if backfill_needed suggestions
      then backfill fuel' (backfill_pass INTERNAL_PAGES suggestions)
      else suggestions
  end.

(** The suggestions before the final slice.  Every pass of the [while]
    adds a suggestion, so [len INTERNAL_PAGES] iterations are enough
    ([backfill_done] below). *)
Definition internal_suggestions (article : Article.t)
    (serp_analysis : SERPAnalysis.t) : list InternalLinkSuggestion.t :=
  backfill (List.length INTERNAL_PAGES)
    (match_loop article serp_analysis INTERNAL_PAGES []).

Definition plan_internal_links (article : Article.t)
    (serp_analysis : SERPAnalysis.t) : list InternalLinkSuggestion.t :=
  upto 5 (internal_suggestions article serp_analysis).

Definition authoritative_domains : list string := [".com"; ".org"; ".edu"].

Definition is_authoritative (r : SERPResult.t) : bool :=
  existsb (fun domain => str_in domain (SERPResult.url r)) authoritative_domains.

(** The loop over [outline.sections] that keeps the section with the
    largest overlap. *)
Fixpoint best_section_loop (result_keywords : list string)
    (sections : list OutlineSection.t)
    (best_section : option OutlineSection.t) (best_match_score : Z)
  : option OutlineSection.t :=
  match sections with
  | [] => best_section
  | section :: rest =>
      let section_keywords := set (split (lower (OutlineSection.heading section))) in
      let section_summary_keywords :=
        set (split (lower (OutlineSection.summary section))) in
      let all_section_keywords :=
        set (section_keywords ++ section_summary_keywords)%list in
      let overlap := len (inter result_keywords all_section_keywords) in
      if best_match_score <? overlap
      then best_section_loop result_keywords rest (Some section) overlap
      else best_section_loop result_keywords rest best_section best_match_score
  end.

(** The body of [for result in selected_results]. *)
Definition reference (outline : Outline.t) (result : SERPResult.t)
  : ExternalReference.t :=
  let result_keywords := set (split (lower (SERPResult.title result))) in
  let best_section :=
    best_section_loop result_keywords (Outline.sections outline) None 0 in
  let best_section :=
    match best_section, Outline.sections outline with
    | None, first :: _ => Some first
    | _, _ => best_section
    end in
  let section_slug :=
    match best_section with
    | Some b => OutlineSection.slug b
    | None => "introduction"
    end in
  let context_reason :=
    match best_section with
    | Some b => "Use this when discussing " ++ lower (OutlineSection.heading b)
    | None => "Useful reference for the topic"
    end in
  ExternalReference.mk (SERPResult.title result) (SERPResult.url result)
    section_slug context_reason.

(** The body of [for result in remaining[:2 - len(references)]]. *)
Definition fallback_reference (outline : Outline.t) (result : SERPResult.t)
  : ExternalReference.t :=
  let section_slug :=
    match Outline.sections outline with
    | first :: _ => OutlineSection.slug first
    | [] => "introduction"
    end in
  ExternalReference.mk (SERPResult.title result) (SERPResult.url result)
    section_slug "Useful reference for the topic".

(** [for x in xs: references.append(f(x))] *)
Definition append_all {A : Type} (f : A -> ExternalReference.t) (xs : list A)
    (references : list ExternalReference.t) : list ExternalReference.t :=
  fold_left (fun refs x => (refs ++ [f x])%list) xs references.

(** [references] as it stands when a non-empty [serp_results] reaches the
    [return] on the last line. *)
Definition references_produced (serp_results : list SERPResult.t)
    (outline : Outline.t) : list ExternalReference.t :=
  let references : list ExternalReference.t := [] in
  let authoritative_results := List.filter is_authoritative serp_results in
  let selected_results :=
    match authoritative_results with
    | [] => upto 4 serp_results
    | _ => upto 4 authoritative_results
    end in
  let references := append_all (reference outline) selected_results references in
  if (len references <? 2) && (2 <=? len serp_results) then
    let used_urls := set (map ExternalReference.url references) in
    let remaining :=
      upto 2 (List.filter (fun r => negb (mem (SERPResult.url r) used_urls))
                serp_results) in
    append_all (fallback_reference outline)
      (upto (Z.to_nat (2 - len references)) remaining) references
  else references.

Definition plan_external_references (serp_results : list SERPResult.t)
    (outline : Outline.t) : list ExternalReference.t :=
  match serp_results with
  | [] => []
  | _ =>
      let references := references_produced serp_results outline in
      if 2 <=? len references then upto 4 references else references
  end.

End LinkPlanner.

(** ** app/domain/context.py *)

Module ArticleContext.
Record t : Type := mk {
  job_id : string;
  input : ArticleJobCreate.t;
  serp_results : list SERPResult.t;
  serp_analysis : option SERPAnalysis.t;
  outline : option Outline.t;
  article : option Article.t }.

Definition set_serp_results (c : t) (v : list SERPResult.t) : t :=
  mk (job_id c) (input c) v (serp_analysis c) (outline c) (article c).
Definition set_serp_analysis (c : t) (v : option SERPAnalysis.t) : t :=
  mk (job_id c) (input c) (serp_results c) v (outline c) (article c).
Definition set_outline (c : t) (v : option Outline.t) : t :=
  mk (job_id c) (input c) (serp_results c) (serp_analysis c) v (article c).
Definition set_article (c : t) (v : option Article.t) : t :=
  mk (job_id c) (input c) (serp_results c) (serp_analysis c) (outline c) v.
End ArticleContext.

(** ** The row of the [jobs] table ([app/models/orm.py], class [Job])

    A snapshot column holds the value whose JSON text the row stores
    ([None] for SQL NULL): [model_dump_json] and [model_validate_json] are
    taken to be inverse to each other. *)

Module Job.
Record t : Type := mk {
  id : string;
  topic : string;
  target_word_count : Z;
  language : string;
  status : string;
  created_at : Z;
  updated_at : Z;
  serp_results_json : option (list SERPResult.t);
  serp_analysis_json : option SERPAnalysis.t;
  outline_json : option Outline.t;
  article_json : option Article.t;
  error_message : option string }.
End Job.

(** ** The outside world

    Everything the code reaches outside the repository: the search API, the
    chat completion API, the clock, and the two libraries that turn text and
    untyped values into typed ones. *)

(** A request sent to a provider. *)
Inductive Call : Type :=
| SerpApiSearch (q api_key engine : string) (num : Z)
| ChatCompletion (api_key model system user : string) (json_object : bool).

(** One entry of [organic_results]; a key may be absent. *)
Module OrganicResult.
Record t : Type := mk {
  link : option string;
  title : option string;
  snippet : option string }.
End OrganicResult.

(** The providers and the clock.  An answer may depend on the requests made
    before it.
    - [serpapi_get_dict]: [GoogleSearch(params).get_dict()], as the value of
      its ["organic_results"] key if it has one;
    - [chat_create]: [client.chat.completions.create(...)], as
      [response.choices[0].message.content];
    - [utcnow k]: the [k]-th reading of [datetime.utcnow()]. *)
Record Env : Type := mkEnv {
  serpapi_get_dict : list Call -> Call -> Result (option (list OrganicResult.t));
  chat_create : list Call -> Call -> Result string;
  utcnow : nat -> Z }.

(** Library code.
    - [json_loads]: [json.loads], raising [JSONDecodeError];
    - [HttpUrl]: pydantic's validation of a [url] field;
    - [SERPAnalysis_new], [Outline_new]: the construction of a
      [SERPAnalysis] and of an [Outline] from the keys of the provider's
      answer;
    - [SEOInfo_new]: [SEOInfo(title_tag=..., ...)] on the two untyped values
      taken from the provider's answer. *)
Record Lib : Type := mkLib {
  json_loads : string -> Result Json;
  HttpUrl : string -> Result string;
  SERPAnalysis_new : Json -> Result SERPAnalysis.t;
  Outline_new : Json -> Result Outline.t;
  SEOInfo_new : Json -> Json -> string -> list string -> Z -> Z -> Result SEOInfo.t }.

Record World : Type := mkWorld {
  jobs : gmap string Job.t;
  clock : nat;
  calls : list Call }.

(** ** Computations that read and write the world and may raise *)

Definition M (A : Type) : Type := World -> Result A * World.

Definition ret {A : Type} (a : A) : M A := fun w => (Ok a, w).

Definition raise {A : Type} (msg : string) : M A := fun w => (Raise msg, w).

Definition bind {A B : Type} (m : M A) (k : A -> M B) : M B :=
  fun w =>
    match m w with
    | (Ok a, w') => k a w'
    | (Raise msg, w') => (Raise msg, w')
    end.

Notation "'let!' x ':=' m 'in' k" := (bind m (fun x => k))
  (at level 10, x name, m at level 100, k at level 200).

(** A pure step that may raise. *)
Definition lift {A : Type} (r : Result A) : M A := fun w => (r, w).

(** [try: m  except Exception as e: h(str(e))] *)
Definition try_except {A : Type} (m : M A) (h : string -> M A) : M A :=
  fun w =>
    match m w with
    | (Ok a, w') => (Ok a, w')
    | (Raise msg, w') => h msg w'
    end.

Definition record_call (c : Call) (w : World) : World :=
  mkWorld (jobs w) (clock w) (calls w ++ [c])%list.

(** A request to a provider: it is recorded, and answered from the requests
    before it. *)
Definition request {A : Type} (answer : list Call -> Call -> Result A) (c : Call)
  : M A :=
  fun w => (answer (calls w) c, record_call c w).

(** [for x in xs: acc = f(acc, x)], stopping at the first exception. *)
Fixpoint for_each {A B : Type} (f : B -> A -> M B) (xs : list A) (acc : B) : M B :=
  match xs with
  | [] => ret acc
  | x :: rest => let! acc' := f acc x in for_each f rest acc'
  end.

(** [l[:n]] for any [int] [n]. *)
Definition slice_to {A : Type} (n : Z) (l : list A) : list A :=
  if 0 <=? n then firstn (Z.to_nat n) l
  else firstn (List.length l - Z.to_nat (- n)) l.

(** [enumerate(l, start=k)] *)
Fixpoint enumerate {A : Type} (k : Z) (l : list A) : list (Z * A) :=
  match l with
  | [] => []
  | x :: rest => (k, x) :: enumerate (k + 1) rest
  end.

(** [d.get(key, default)] with the empty text as default, on an entry of
    [organic_results]. *)
Definition get_or_empty (v : option string) : string :=
  match v with Some s => s | None => EmptyString end.

(** ** app/services/serp_client.py *)

Module SerpClient.
Record t : Type := mk { api_key : string }.

Section Search.
Context (env : Env) (lib : Lib).

Definition search (self : t) (query : string) (limit : Z)
  : M (list SERPResult.t) :=
  try_except
    (let request_num := Z.max limit 15 in
     let params := SerpApiSearch query (api_key self) "google" request_num in
     let! results := request (serpapi_get_dict env) params in
     let organic_results :=
       match results with Some l => l | None => [] end in
     for_each
       (fun serp_results '(idx, result) =>
          let! url := lift (HttpUrl lib (get_or_empty (OrganicResult.link result))) in
          ret (serp_results
                 ++ [SERPResult.mk idx url
                       (get_or_empty (OrganicResult.title result))
                       (get_or_empty (OrganicResult.snippet result))])%list)
       (enumerate 1 (slice_to limit organic_results)) [])
    (fun e => raise ("SerpAPI search failed: " ++ e)).
End Search.
End SerpClient.

(** ** app/services/llm_client.py *)

Module LLMClient.
Record t : Type := mk { api_key : string; model : string }.

Section Generate.
Context (env : Env) (lib : Lib).

Definition generate_json (self : t) (prompt schema_hint : string) : M Json :=
  let full_prompt :=
    if is_empty schema_hint
    then prompt ++ nl ++ nl ++ "Return only valid JSON, no other text."
    else prompt ++ nl ++ nl ++ "Return only valid JSON matching this structure: "
           ++ schema_hint in
  let! content :=
    try_except
      (request (chat_create env)
         (ChatCompletion (api_key self) (model self)
            "You are a helpful assistant that returns only valid JSON."
            full_prompt true))
      (fun e => raise ("OpenAI API call failed: " ++ e)) in
  match json_loads lib content with
  | Ok v => ret v
  | Raise e => raise ("Failed to parse JSON response: " ++ e)
  end.

Definition generate_text (self : t) (prompt : string) : M string :=
  try_except
    (request (chat_create env)
       (ChatCompletion (api_key self) (model self)
          "You are a helpful assistant that writes high-quality, SEO-optimized content."
          prompt false))
    (fun e => raise ("OpenAI API call failed: " ++ e)).
End Generate.
End LLMClient.

(** ** app/domain/agents.py *)

Module Agents.

Section Run.
Context (env : Env) (lib : Lib).

(** *** SERPAgent *)

Definition SERPAgent_run (serp_client : SerpClient.t) (ctx : ArticleContext.t)
  : M ArticleContext.t :=
  match ArticleContext.serp_results ctx with
  | [] =>
      let! found :=
        SerpClient.search env lib serp_client
          (ArticleJobCreate.topic (ArticleContext.input ctx)) 15 in
      let ctx := ArticleContext.set_serp_results ctx found in
      let ctx :=
        ArticleContext.set_serp_results ctx
          (upto 10 (ArticleContext.serp_results ctx)) in
      ret ctx
  | _ => ret ctx
  end.

(** *** SERPAnalysisAgent *)

Definition serp_text (serp_results : list SERPResult.t) : string :=
  join (nl ++ nl)
    (map (fun r => "Rank " ++ str (SERPResult.rank r) ++ ": "
                     ++ SERPResult.title r ++ nl ++ SERPResult.snippet r)
       serp_results).

Definition analysis_prompt (ctx : ArticleContext.t) : string :=
  lines
    [ "Analyze the following search results for the topic "
        ++ quoted (ArticleJobCreate.topic (ArticleContext.input ctx)) ++ ":";
      EmptyString;
      serp_text (ArticleContext.serp_results ctx);
      EmptyString;
      "Extract and return JSON with:";
      "- primary_keyword: The main keyword (string)";
      "- secondary_keywords: 10-20 related keywords (array of strings)";
      "- topics: 8-12 key subtopics to cover (array of strings)";
      "- faqs: 5-8 frequently asked questions (array of strings)";
      EmptyString;
      "Return only valid JSON matching this structure:";
      "{";
      "  " ++ quoted "primary_keyword" ++ ": " ++ quoted "..." ++ ",";
      "  " ++ quoted "secondary_keywords" ++ ": [" ++ quoted "..." ++ ", "
        ++ quoted "..." ++ "],";
      "  " ++ quoted "topics" ++ ": [" ++ quoted "..." ++ ", "
        ++ quoted "..." ++ "],";
      "  " ++ quoted "faqs" ++ ": [" ++ quoted "..." ++ ", "
        ++ quoted "..." ++ "]";
      "}" ].

Definition analysis_schema_hint : string :=
  "{" ++ quoted "primary_keyword" ++ ": " ++ quoted "string" ++ ", "
    ++ quoted "secondary_keywords" ++ ": [" ++ quoted "string" ++ "], "
    ++ quoted "topics" ++ ": [" ++ quoted "string" ++ "], "
    ++ quoted "faqs" ++ ": [" ++ quoted "string" ++ "]}".

Definition SERPAnalysisAgent_run (llm_client : LLMClient.t)
    (ctx : ArticleContext.t) : M ArticleContext.t :=
  match ArticleContext.serp_analysis ctx with
  | None =>
      let prompt := analysis_prompt ctx in
      let schema_hint := analysis_schema_hint in
      let! result :=
        LLMClient.generate_json env lib llm_client prompt schema_hint in
      let! analysis := lift (SERPAnalysis_new lib result) in
      ret (ArticleContext.set_serp_analysis ctx (Some analysis))
  | Some _ => ret ctx
  end.

(** *** OutlineAgent *)

Definition outline_prompt (ctx : ArticleContext.t)
    (serp_analysis : SERPAnalysis.t) : string :=
  lines
    [ "Create a detailed SEO-optimized article outline for the topic: "
        ++ quoted (ArticleJobCreate.topic (ArticleContext.input ctx));
      EmptyString;
      "Primary keyword: " ++ SERPAnalysis.primary_keyword serp_analysis;
      "Secondary keywords: "
        ++ join ", " (upto 10 (SERPAnalysis.secondary_keywords serp_analysis));
      "Key topics to cover: " ++ join ", " (SERPAnalysis.topics serp_analysis);
      "Target word count: "
        ++ str (ArticleJobCreate.target_word_count (ArticleContext.input ctx));
      EmptyString;
      "Requirements:";
      "- Exactly one H1 (provided as the title field)";
      "- Multiple H2 sections (at least 3) with heading_level=2";
      "- Optional H3 subsections with heading_level=3";
      "- Each section should have:";
      "  - heading_level: 2 or 3 (title is the H1)";
      "  - heading: The heading text";
      "  - slug: URL-friendly slug (lowercase, hyphens)";
      "  - summary: Brief explanation of what this section covers";
      EmptyString;
      "Return only valid JSON matching this structure:";
      "{";
      "  " ++ quoted "title" ++ ": " ++ quoted "H1 title here" ++ ",";
      "  " ++ quoted "sections" ++ ": [";
      "    {";
      "      " ++ quoted "heading_level" ++ ": 2,";
      "      " ++ quoted "heading" ++ ": " ++ quoted "Section heading" ++ ",";
      "      " ++ quoted "slug" ++ ": " ++ quoted "section-slug" ++ ",";
      "      " ++ quoted "summary" ++ ": " ++ quoted "What this section covers";
      "    }";
      "  ]";
      "}" ].

Definition outline_schema_hint : string :=
  "{" ++ quoted "title" ++ ": " ++ quoted "string" ++ ", "
    ++ quoted "sections" ++ ": [{" ++ quoted "heading_level" ++ ": 2, "
    ++ quoted "heading" ++ ": " ++ quoted "string" ++ ", "
    ++ quoted "slug" ++ ": " ++ quoted "string" ++ ", "
    ++ quoted "summary" ++ ": " ++ quoted "string" ++ "}]}".

(** [sum(1 for s in outline.sections if s.heading_level == level)] *)
Definition count_level (level : Z) (outline : Outline.t) : Z :=
  len (List.filter (fun s => OutlineSection.heading_level s =? level)
         (Outline.sections outline)).

Definition h1_in_sections_error (h1_in_sections : Z) : string :=
  "Outline sections should not have heading_level=1 (title is the H1), found "
    ++ str h1_in_sections ++ " H1 sections".

Definition h2_count_error (h2_count : Z) : string :=
  "Outline must have at least 3 H2 sections, found " ++ str h2_count.

Definition OutlineAgent_run (llm_client : LLMClient.t) (ctx : ArticleContext.t)
  : M ArticleContext.t :=
  match ArticleContext.outline ctx with
  | None =>
      match ArticleContext.serp_analysis ctx with
      | None => raise "SERP analysis required before generating outline"
      | Some serp_analysis =>
          let prompt := outline_prompt ctx serp_analysis in
          let schema_hint := outline_schema_hint in
          let! result :=
            LLMClient.generate_json env lib llm_client prompt schema_hint in
          let! outline := lift (Outline_new lib result) in
          let h1_in_sections := count_level 1 outline in
          let h2_count := count_level 2 outline in
          if 0 <? h1_in_sections
          then raise (h1_in_sections_error h1_in_sections)
          else if h2_count <? 3
          then raise (h2_count_error h2_count)
          else ret (ArticleContext.set_outline ctx (Some outline))
      end
  | Some _ => ret ctx
  end.

(** *** DraftAgent *)

(** ["#" * n] *)
Definition hashes_text (n : Z) : string :=
  String.concat EmptyString (repeat "#" (Z.to_nat n)).

Definition outline_text (outline : Outline.t) : string :=
  fold_left
    (fun text section =>
       text ++ hashes_text (OutlineSection.heading_level section) ++ " "
         ++ OutlineSection.heading section ++ nl
         ++ OutlineSection.summary section ++ nl ++ nl)
    (Outline.sections outline)
    (Outline.title outline ++ nl ++ nl).

Definition draft_prompt (ctx : ArticleContext.t) (outline : Outline.t)
    (serp_analysis : SERPAnalysis.t)
    (target min_words max_words words_per_section : Z) : string :=
  lines
    [ "Write a complete, SEO-optimized article in markdown format.";
      EmptyString;
      "Topic: " ++ ArticleJobCreate.topic (ArticleContext.input ctx);
      "Primary keyword: " ++ SERPAnalysis.primary_keyword serp_analysis;
      "Secondary keywords: "
        ++ join ", " (SERPAnalysis.secondary_keywords serp_analysis);
      "Target word count: " ++ str target
        ++ " words (CRITICAL: You must write between " ++ str min_words
        ++ " and " ++ str max_words ++ " words)";
      EmptyString;
      "Use this exact outline structure:";
      outline_text outline;
      EmptyString;
      "Requirements:";
      "1. Use the exact headings from the outline above (same text, same heading levels)";
      "2. Include the primary keyword in:";
      "   - The H1 (title)";
      "   - The introduction (first 100-150 words)";
      "   - At least one H2 heading";
      "3. Use secondary keywords naturally throughout (no keyword stuffing)";
      "4. WORD COUNT REQUIREMENT: Write between " ++ str min_words ++ " and "
        ++ str max_words ++ " words total (target: " ++ str target
        ++ " words). This is mandatory. Aim for approximately "
        ++ str words_per_section ++ " words per section. DO NOT exceed "
        ++ str max_words ++ " words.";
      "5. Write in a human, conversational tone";
      "6. Make it engaging and valuable for readers with detailed explanations, examples, and insights";
      "7. Use proper markdown formatting";
      "8. Expand on each section with substantial content - don't just write brief summaries";
      EmptyString;
      "Generate the full article body in markdown. Start with the H1 heading. Remember: the article must be between "
        ++ str min_words ++ " and " ++ str max_words ++ " words long." ].

Definition seo_prompt (ctx : ArticleContext.t) (outline : Outline.t)
    (serp_analysis : SERPAnalysis.t) : string :=
  lines
    [ "Generate SEO metadata for this article:";
      EmptyString;
      "Topic: " ++ ArticleJobCreate.topic (ArticleContext.input ctx);
      "Primary keyword: " ++ SERPAnalysis.primary_keyword serp_analysis;
      "Article title: " ++ Outline.title outline;
      EmptyString;
      "Return JSON with:";
      "- title_tag: SEO title (50-60 characters, includes primary keyword)";
      "- meta_description: Meta description (150-160 characters, includes primary keyword once)";
      EmptyString;
      "Return only valid JSON:";
      "{";
      "  " ++ quoted "title_tag" ++ ": " ++ quoted "..." ++ ",";
      "  " ++ quoted "meta_description" ++ ": " ++ quoted "...";
      "}" ].

Definition seo_schema : string :=
  "{" ++ quoted "title_tag" ++ ": " ++ quoted "string" ++ ", "
    ++ quoted "meta_description" ++ ": " ++ quoted "string" ++ "}".

(** [type(v).__name__] *)
Definition type_name (v : Json) : string :=
  match v with
  | JNull => "NoneType"
  | JBool _ => "bool"
  | JInt _ => "int"
  | JStr _ => "str"
  | JList _ => "list"
  | JObj _ => "dict"
  end.

Fixpoint lookup_key (key : string) (fields : list (string * Json))
  : option Json :=
  match fields with
  | [] => None
  | (k, v) :: rest => if String.eqb k key then Some v else lookup_key key rest
  end.

(** [v.get(key, default)] *)
Definition dict_get (v : Json) (key : string) (default : Json) : Result Json :=
  match v with
  | JObj fields =>
      Ok (match lookup_key key fields with Some x => x | None => default end)
  | _ => Raise ("'" ++ type_name v ++ "' object has no attribute 'get'")
  end.

(** [v[key]] on a value on which [get] has succeeded. *)
Definition dict_item (v : Json) (key : string) : Result Json :=
  match v with
  | JObj fields =>
      match lookup_key key fields with
      | Some x => Ok x
      | None => Raise ("'" ++ key ++ "'")
      end
  | _ => Raise ("'" ++ type_name v ++ "' object is not subscriptable")
  end.

Definition DraftAgent_run (llm_client : LLMClient.t) (ctx : ArticleContext.t)
  : M ArticleContext.t :=
  match ArticleContext.article ctx with
  | None =>
      match ArticleContext.outline ctx, ArticleContext.serp_analysis ctx with
      | Some outline, Some serp_analysis =>
          let target :=
            ArticleJobCreate.target_word_count (ArticleContext.input ctx) in
          let! min_words := lift (int_mul_0_8 target) in
          let! max_words := lift (int_mul_1_2 target) in
          let num_sections := len (Outline.sections outline) in
          let words_per_section :=
            Z.max 200 (target / Z.max num_sections 1) in
          let prompt :=
            draft_prompt ctx outline serp_analysis target min_words max_words
              words_per_section in
          let! body_markdown :=
            LLMClient.generate_text env llm_client prompt in
          let! seo_result :=
            LLMClient.generate_json env lib llm_client
              (seo_prompt ctx outline serp_analysis) seo_schema in
          let! description :=
            lift (dict_get seo_result "meta_description" (JStr EmptyString)) in
          let structured_data :=
            [ ("@context", JStr "https://schema.org");
              ("@type", JStr "BlogPosting");
              ("headline", JStr (Outline.title outline));
              ("description", description);
              ("keywords",
               JStr (join ", "
                       (SERPAnalysis.primary_keyword serp_analysis
                          :: upto 5 (SERPAnalysis.secondary_keywords serp_analysis)))) ] in
          let word_count := len (split body_markdown) in
          let! title_tag := lift (dict_item seo_result "title_tag") in
          let! meta_description := lift (dict_item seo_result "meta_description") in
          let! seo_info :=
            lift (SEOInfo_new lib title_tag meta_description
                    (SERPAnalysis.primary_keyword serp_analysis)
                    (SERPAnalysis.secondary_keywords serp_analysis)
                    target word_count) in
          ret (ArticleContext.set_article ctx
                 (Some (Article.mk (Outline.title outline) body_markdown
                          seo_info [] [] structured_data)))
      | _, _ => raise "Outline and SERP analysis required before generating draft"
      end
  | Some _ => ret ctx
  end.

(** *** ValidationAgent *)

Definition validation_error_message (errors : list string) : string :=
  "SEO validation failed:" ++ nl ++ join nl (map (fun e => "- " ++ e) errors).

Definition ValidationAgent_run (ctx : ArticleContext.t) : M ArticleContext.t :=
  match ArticleContext.article ctx with
  | None => raise "Article required for validation"
  | Some article =>
      match ArticleContext.serp_analysis ctx with
      | None => raise "SERP analysis required for link planning"
      | Some serp_analysis =>
          let article :=
            Article.set_internal_links article
              (LinkPlanner.plan_internal_links article serp_analysis) in
          let article :=
            match ArticleContext.outline ctx, ArticleContext.serp_results ctx with
            | Some outline, _ :: _ =>
                Article.set_external_references article
                  (LinkPlanner.plan_external_references
                     (ArticleContext.serp_results ctx) outline)
            | _, _ => Article.set_external_references article []
            end in
          let '(outcome, article) := SEOValidator.validate article in
          let ctx := ArticleContext.set_article ctx (Some article) in
          let! errors := lift outcome in
          match errors with
          | [] => ret ctx
          | _ => raise (validation_error_message errors)
          end
      end
  end.

(** The five stages, in the order of [build_pipeline]. *)
Inductive Agent : Type :=
| SERPAgent (serp_client : SerpClient.t)
| SERPAnalysisAgent (llm_client : LLMClient.t)
| OutlineAgent (llm_client : LLMClient.t)
| DraftAgent (llm_client : LLMClient.t)
| ValidationAgent.

(** [agent.run(ctx)] *)
Definition run (agent : Agent) (ctx : ArticleContext.t) : M ArticleContext.t :=
  match agent with
  | SERPAgent serp_client => SERPAgent_run serp_client ctx
  | SERPAnalysisAgent llm_client => SERPAnalysisAgent_run llm_client ctx
  | OutlineAgent llm_client => OutlineAgent_run llm_client ctx
  | DraftAgent llm_client => DraftAgent_run llm_client ctx
  | ValidationAgent => ValidationAgent_run ctx
  end.

End Run.
End Agents.

(** ** app/models/orm.py *)

Module Orm.

(** [db.query(Job).filter(Job.id == job_id).first()] *)
Definition get_job (job_id : string) : M (option Job.t) :=
  fun w => (Ok (jobs w !! job_id), w).

(** [column = value] when the argument is not [None]. *)
Definition assign {A : Type} (value : option A) (column : option A) : option A :=
  match value with
  | Some v => Some v
  | None => column
  end.

Section Update.
Context (env : Env).

Definition update_job_status_and_data (job_id : string) (status : JobStatus)
    (serp_results : option (list SERPResult.t))
    (serp_analysis : option SERPAnalysis.t)
    (outline : option Outline.t)
    (article : option Article.t)
    (error_message : option string) : M Job.t :=
  let! found := get_job job_id in
  match found with
  | None => raise ("Job " ++ job_id ++ " not found")
  | Some job =>
      fun w =>
        let job' :=
          Job.mk (Job.id job) (Job.topic job) (Job.target_word_count job)
            (Job.language job)
            (JobStatus_.value status)
            (Job.created_at job)
            (utcnow env (clock w))
            (assign serp_results (Job.serp_results_json job))
            (assign serp_analysis (Job.serp_analysis_json job))
            (assign outline (Job.outline_json job))
            (assign article (Job.article_json job))
            (assign error_message (Job.error_message job)) in
        (Ok job', mkWorld (<[job_id := job']> (jobs w)) (S (clock w)) (calls w))
  end.
End Update.
End Orm.

(** ** app/domain/pipeline.py *)

Module Pipeline.
Import Agents.

(** [services]: the two provider clients.  The validator and the link
    planner have no fields. *)
Record Services : Type := mkServices {
  serp_client : SerpClient.t;
  llm_client : LLMClient.t }.

Definition build_pipeline (services : Services) : list Agent :=
  [ SERPAgent (serp_client services);
    SERPAnalysisAgent (llm_client services);
    OutlineAgent (llm_client services);
    DraftAgent (llm_client services);
    ValidationAgent ].

(** [Language(text)] *)
Definition Language_of (text : string) : Result Language :=
  if String.eqb text "en" then Ok en
  else Raise ("'" ++ text ++ "' is not a valid Language").

Section Process.
Context (env : Env) (lib : Lib).

Definition update := Orm.update_job_status_and_data env.

(** The [if isinstance(agent, ...) and ...] chain after [agent.run]. *)
Definition persist (job_id : string) (agent : Agent) (ctx : ArticleContext.t)
  : M unit :=
  match agent, ctx with
  | SERPAgent _, ArticleContext.mk _ _ (_ :: _) _ _ _ =>
      let! _ := update job_id running
                  (Some (ArticleContext.serp_results ctx)) None None None None in
      ret tt
  | SERPAnalysisAgent _, ArticleContext.mk _ _ _ (Some _) _ _ =>
      let! _ := update job_id running
                  None (ArticleContext.serp_analysis ctx) None None None in
      ret tt
  | OutlineAgent _, ArticleContext.mk _ _ _ _ (Some _) _ =>
      let! _ := update job_id running
                  None None (ArticleContext.outline ctx) None None in
      ret tt
  | DraftAgent _, ArticleContext.mk _ _ _ _ _ (Some _) =>
      let! _ := update job_id running
                  None None None (ArticleContext.article ctx) None in
      ret tt
  | ValidationAgent, ArticleContext.mk _ _ _ _ _ (Some _) =>
      let! _ := update job_id running
                  None None None (ArticleContext.article ctx) None in
      ret tt
  | _, _ => ret tt
  end.

(** [for agent in agents: ctx = agent.run(ctx); ...] *)
Fixpoint run_agents (job_id : string) (agents : list Agent)
    (ctx : ArticleContext.t) : M ArticleContext.t :=
  match agents with
  | [] => ret ctx
  | agent :: rest =>
      let! ctx := Agents.run env lib agent ctx in
      let! _ := persist job_id agent ctx in
      run_agents job_id rest ctx
  end.

(** The context built from the row at the start of the [try] block. *)
Definition rehydrate (job_id : string) (job : Job.t) (language : Language)
  : ArticleContext.t :=
  let ctx :=
    ArticleContext.mk job_id
      (ArticleJobCreate.mk (Job.topic job) (Job.target_word_count job) language)
      [] None None None in
  let ctx :=
    match Job.serp_results_json job with
    | Some serp_data => ArticleContext.set_serp_results ctx serp_data
    | None => ctx
    end in
  let ctx :=
    match Job.serp_analysis_json job with
    | Some v => ArticleContext.set_serp_analysis ctx (Some v)
    | None => ctx
    end in
  let ctx :=
    match Job.outline_json job with
    | Some v => ArticleContext.set_outline ctx (Some v)
    | None => ctx
    end in
  match Job.article_json job with
  | Some v => ArticleContext.set_article ctx (Some v)
  | None => ctx
  end.

Definition process_job (job_id : string) (services : Services) : M unit :=
  let! job := Orm.get_job job_id in
  match job with
  | None => raise ("Job " ++ job_id ++ " not found")
  | Some job =>
      if String.eqb (Job.status job) (JobStatus_.value completed) then ret tt
      else if String.eqb (Job.status job) (JobStatus_.value failed) then ret tt
      else
        let! _ := update job_id running None None None None None in
        try_except
          (let! language := lift (Language_of (Job.language job)) in
           let ctx := rehydrate job_id job language in
           let agents := build_pipeline services in
           let! ctx := run_agents job_id agents ctx in
           let! _ := update job_id completed
                       None None None (ArticleContext.article ctx) None in
           ret tt)
          (fun error_message =>
             let! _ := update job_id failed
                         None None None None (Some error_message) in
             raise error_message)
  end.
End Process.
End Pipeline.

(** * Notions used in the statements *)

(** The errors of the word-count check. *)
Definition band_errors (word_count min_words max_words target : Z) : list string :=
  if word_count <? min_words then [SEOValidator.below_minimum word_count min_words target]
  else if max_words <? word_count then [SEOValidator.exceeds_maximum word_count max_words target]
  else [].

(** An error of the word-count check, among the errors of [validate]. *)
Definition is_band_error (e : string) : bool := String.prefix "Word count " e.

(** The pages in the order of the result: those that match, then the
    others, each group in catalog order. *)
Definition matched_then_rest (m : LinkPlanner.Page -> bool)
  : list InternalLinkSuggestion.t :=
  map LinkPlanner.suggestion
    (List.filter m LinkPlanner.INTERNAL_PAGES
       ++ List.filter (fun p => negb (m p)) LinkPlanner.INTERNAL_PAGES)%list.

(** A computation that leaves the job store and the clock as they are. *)
Definition keeps_store {A : Type} (m : M A) : Prop :=
  forall w, jobs (snd (m w)) = jobs w /\ clock (snd (m w)) = clock w.

(** The ranks of a list of results are 1, 2, 3, ... from [k] on. *)
Definition ranked_from (k : Z) (results : list SERPResult.t) : Prop :=
  forall (i : nat) (r : SERPResult.t),
    nth_error results i = Some r -> SERPResult.rank r = k + Z.of_nat i.

(** The request that [generate_json] sends for a prompt and a schema hint. *)
Definition json_request (self : LLMClient.t) (prompt schema_hint : string) : Call :=
  ChatCompletion (LLMClient.api_key self) (LLMClient.model self)
    "You are a helpful assistant that returns only valid JSON."
    (prompt ++ nl ++ nl ++ "Return only valid JSON matching this structure: "
       ++ schema_hint)
    true.

(** The article on which the validation stage runs the validator: the
    article of the context with its links planned anew. *)
Definition relinked (ctx : ArticleContext.t) (article : Article.t)
    (serp_analysis : SERPAnalysis.t) : Article.t :=
  let article :=
    Article.set_internal_links article
      (LinkPlanner.plan_internal_links article serp_analysis) in
  match ArticleContext.outline ctx, ArticleContext.serp_results ctx with
  | Some outline, _ :: _ =>
      Article.set_external_references article
        (LinkPlanner.plan_external_references (ArticleContext.serp_results ctx)
           outline)
  | _, _ => Article.set_external_references article []
  end.

(** The job is in the store. *)
Definition has_job (job_id : string) (w : World) : Prop :=
  exists job, jobs w !! job_id = Some job.

(** The run ended with the exception [msg], and the job is stored as
    [failed] with [msg] as its error message. *)
Definition failed_with (job_id : string) (outcome : Result unit * World)
    (msg : string) : Prop :=
  fst outcome = Raise msg
  /\ exists job',
       jobs (snd outcome) !! job_id = Some job'
       /\ Job.status job' = "failed"
       /\ Job.error_message job' = Some msg.

(** The stages before the outline stage. *)
Definition stages_before_outline (services : Pipeline.Services)
  : list Agents.Agent :=
  [ Agents.SERPAgent (Pipeline.serp_client services);
    Agents.SERPAnalysisAgent (Pipeline.llm_client services) ].

(** The outline stage and the stages after it. *)
Definition stages_from_outline (services : Pipeline.Services)
  : list Agents.Agent :=
  [ Agents.OutlineAgent (Pipeline.llm_client services);
    Agents.DraftAgent (Pipeline.llm_client services);
    Agents.ValidationAgent ].

(** * Sample data: articles, contexts, providers, libraries, jobs *)

(** [n] words. *)
Definition words (n : nat) : string := String.concat " " (repeat "word" n).

(** An article with the given target and body. *)
Definition sample_article (target : Z) (h1 body : string) : Article.t :=
  Article.mk h1 body
    (SEOInfo.mk "Title tag" "Meta description" "word" [] target None)
    [] [] [].

(** A title that contains "tips" only inside the longer word "tipsy". *)
Definition tipsy_article : Article.t := sample_article 1500 "Tipsy" EmptyString.

(** An analysis without topics. *)
Definition no_topics : SERPAnalysis.t := SERPAnalysis.mk "tipsy" [] [] [].

(** The three pages of the catalog. *)
Definition page_seo : LinkPlanner.Page :=
  LinkPlanner.mkPage "seo-keyword-research-tools" "SEO keyword research tools".
Definition page_content : LinkPlanner.Page :=
  LinkPlanner.mkPage "content-optimization-checklist" "content optimization checklist".
Definition page_remote : LinkPlanner.Page :=
  LinkPlanner.mkPage "remote-team-collaboration" "remote team collaboration tips".

(** Two search results and an outline of three sections. *)
Definition sample_results : list SERPResult.t :=
  [ SERPResult.mk 1 "https://example.com/1" "Example Result 1" "This is a test snippet";
    SERPResult.mk 2 "https://example.com/2" "Example Result 2" "Another test snippet" ].

Definition sample_outline : Outline.t :=
  Outline.mk "A word about words"
    [ OutlineSection.mk 2 "Introduction" "introduction" "Intro section";
      OutlineSection.mk 2 "Main Content" "main-content" "Main section";
      OutlineSection.mk 2 "Conclusion" "conclusion" "Conclusion section" ].

(** A URL check that asks for the scheme only. *)
Definition sample_HttpUrl (text : string) : Result string :=
  if String.prefix "http" text then Ok text
  else Raise "Input should be a valid URL, relative URL without a base".

Definition organic (n : Z) : OrganicResult.t :=
  OrganicResult.mk (Some ("https://example.com/" ++ str n))
    (Some ("Example Result " ++ str n)) (Some "This is a test snippet").

(** Twelve results, more than the stage keeps. *)
Definition twelve_organic : list OrganicResult.t :=
  map organic [1; 2; 3; 4; 5; 6; 7; 8; 9; 10; 11; 12].

Definition sample_analysis : SERPAnalysis.t :=
  SERPAnalysis.mk "word" ["keyword1"; "keyword2"; "keyword3"]
    ["topic1"; "topic2"; "topic3"] ["FAQ1?"; "FAQ2?"].

Definition analysis_content : string :=
  "{" ++ quoted "primary_keyword" ++ ": " ++ quoted "word" ++ "}".

Definition outline_content : string :=
  "{" ++ quoted "title" ++ ": " ++ quoted "A word about words" ++ "}".

(** An outline with one section, of level 1. *)
Definition h1_outline : Outline.t :=
  Outline.mk "A word about words"
    [ OutlineSection.mk 1 "A word about words" "a-word" "The title again" ].

(** An outline with two sections of level 2 and one of level 3. *)
Definition two_h2_outline : Outline.t :=
  Outline.mk "A word about words"
    [ OutlineSection.mk 2 "Introduction" "introduction" "Intro section";
      OutlineSection.mk 3 "Details" "details" "Detail section";
      OutlineSection.mk 2 "Conclusion" "conclusion" "Conclusion section" ].

(** A generation provider that answers by the first word of the prompt, and
    a search provider with twelve results. *)
Definition sample_chat (history : list Call) (request : Call) : Result string :=
  match request with
  | ChatCompletion _ _ _ user _ =>
      if String.prefix "Analyze" user then Ok analysis_content
      else if String.prefix "Create" user then Ok outline_content
      else Raise "Connection error."
  | _ => Raise "Connection error."
  end.

Definition sample_env : Env :=
  mkEnv (fun _ _ => Ok (Some twelve_organic)) sample_chat (fun k => 1000 + Z.of_nat k).

(** A library whose [json.loads] knows the two sample texts, and whose
    outline constructor yields [outline]. *)
Definition sample_lib (outline : Outline.t) : Lib :=
  mkLib
    (fun content =>
       if String.eqb content analysis_content then Ok (JStr "analysis")
       else if String.eqb content outline_content then Ok (JStr "outline")
       else Raise "Expecting value: line 1 column 1 (char 0)")
    sample_HttpUrl
    (fun _ => Ok sample_analysis)
    (fun _ => Ok outline)
    (fun _ _ _ _ _ _ => Raise "1 validation error for SEOInfo").

Definition sample_services : Pipeline.Services :=
  Pipeline.mkServices (SerpClient.mk "serp-key") (LLMClient.mk "llm-key" "gpt-5-mini-2025-08-07").

Definition sample_job (status : string) : Job.t :=
  Job.mk "job-1" "words" 1500 "en" status 1 2 None None None None None.

Definition sample_world (status : string) : World :=
  mkWorld {[ "job-1" := sample_job status ]} 0 [].

Definition empty_context : ArticleContext.t :=
  ArticleContext.mk "job-1" (ArticleJobCreate.mk "words" 1500 en) [] None None None.

(** A body with one level-1 heading, three level-2 headings and ten words. *)
Definition valid_body : string :=
  lines ["# A word"; "## One word"; "## Two"; "## Three"].

(** An article as the draft stage leaves it: no links yet. *)
Definition draft_article : Article.t := sample_article 10 "A word" valid_body.

(** A context in which all four stage outputs are present. *)
Definition full_context : ArticleContext.t :=
  ArticleContext.mk "job-1" (ArticleJobCreate.mk "words" 10 en)
    sample_results (Some sample_analysis) (Some sample_outline)
    (Some draft_article).

Definition sample_llm : LLMClient.t := LLMClient.mk "llm-key" "gpt-5-mini-2025-08-07".

(** * Properties *)

(** ** Strings *)

Lemma prefix_app (p s : string) : String.prefix p (p ++ s) = true.
Proof.
  induction p as [|c p IH]; simpl.
  - destruct s; reflexivity.
  - destruct (ascii_dec c c); [exact IH | congruence].
Qed.

Lemma prefix_inv (p s : string) :
  String.prefix p s = true -> exists r, s = p ++ r.
Proof.
  revert s. induction p as [|c p IH]; intros s H.
  - exists s. reflexivity.
  - destruct s as [|d s]; simpl in H; [discriminate|].
    destruct (ascii_dec c d) as [->|]; [|discriminate].
    destruct (IH _ H) as [r ->]. exists r. reflexivity.
Qed.

(** [needle in hay] holds exactly when [hay] is [a ++ needle ++ b]. *)
Lemma str_in_spec (needle hay : string) :
  str_in needle hay = true <-> exists a b, hay = a ++ needle ++ b.
Proof.
  split.
  - induction hay as [|c hay IH]; intros H.
    + change (str_in needle EmptyString)
        with (if String.prefix needle EmptyString then true else false) in H.
      destruct (String.prefix needle EmptyString) eqn:E; [|discriminate].
      destruct (prefix_inv _ _ E) as [r Hr]. exists EmptyString, r. exact Hr.
    + change (str_in needle (String c hay))
        with (if String.prefix needle (String c hay) then true
              else str_in needle hay) in H.
      destruct (String.prefix needle (String c hay)) eqn:E.
      * destruct (prefix_inv _ _ E) as [r Hr]. exists EmptyString, r. exact Hr.
      * destruct (IH H) as (a & b & ->). exists (String c a), b. reflexivity.
  - intros (a & b & ->). induction a as [|c a IH].
    + change (EmptyString ++ needle ++ b) with (needle ++ b).
      destruct (needle ++ b) eqn:E; unfold str_in; rewrite <- E, prefix_app;
        reflexivity.
    + change (String c a ++ needle ++ b) with (String c (a ++ needle ++ b)).
      change (str_in needle (String c (a ++ needle ++ b)))
        with (if String.prefix needle (String c (a ++ needle ++ b)) then true
              else str_in needle (a ++ needle ++ b)).
      rewrite IH.
      destruct (String.prefix needle (String c (a ++ needle ++ b))); reflexivity.
Qed.

Lemma append_assoc (a b c : string) : (a ++ b) ++ c = a ++ b ++ c.
Proof. induction a as [|x a IH]; simpl; [reflexivity | rewrite IH; reflexivity]. Qed.

Lemma str_in_app_l (needle a b : string) :
  str_in needle a = true -> str_in needle (a ++ b) = true.
Proof.
  rewrite !str_in_spec. intros (x & y & ->). exists x, (y ++ b).
  rewrite !append_assoc. reflexivity.
Qed.

(** ** The products with 0.8 and 1.2

    For a target below [2^48] the two bounds of the validator are the
    integer parts of the exact products: rounding the product to a double
    never moves it across an integer, except back onto [1.2 * n] when that is
    an integer. *)

(** A value of at most 53 bits is a double. *)
Lemma round53_small (n e : Z) :
  Z.log2 n + 1 <= 53 -> round53 n e = (n, e).
Proof.
  intros H. unfold round53. apply Z.leb_le in H. rewrite H. reflexivity.
Qed.

(** A longer value loses its [k] low bits, rounded to nearest, ties to even. *)
Lemma round53_large (n e : Z) :
  53 < Z.log2 n + 1 ->
  let k := Z.log2 n - 52 in
  let q := n / 2 ^ k in
  let r := n mod 2 ^ k in
  round53 n e
  = (if (2 ^ (k - 1) <? r) || ((r =? 2 ^ (k - 1)) && Z.odd q) then q + 1 else q,
     e + k).
Proof.
  intros H k q r. unfold round53.
  apply Z.leb_gt in H. rewrite H.
  replace (Z.log2 n + 1 - 53) with k by (unfold k; lia).
  assert (0 <= k) by (apply Z.leb_gt in H; unfold k; lia).
  rewrite Z.shiftr_div_pow2, Z.land_ones, Z.shiftl_1_l by lia.
  reflexivity.
Qed.

(** Rounding and then truncating gives [a] when the value lies between [a]
    and [a + 0.85] and at least three bits remain below the unit. *)
Lemma round53_floor (P c a : Z) :
  0 < P -> 0 <= a -> 0 < c ->
  a * 2 ^ c <= P -> 20 * P < (20 * a + 17) * 2 ^ c ->
  Z.log2 P + 1 - 53 <= c - 3 ->
  too_large (fst (round53 P (- c))) (snd (round53 P (- c))) = false
  /\ snd (round53 P (- c)) < 0
  /\ Z.shiftr (fst (round53 P (- c))) (- snd (round53 P (- c))) = a.
Proof.
  intros HP Ha Hc Hlo Hhi Hk.
  assert (HC : 0 < 2 ^ c) by (apply Z.pow_pos_nonneg; lia).
  destruct (Z.le_gt_cases (Z.log2 P + 1) 53) as [Hs|Hl].
  - rewrite round53_small by exact Hs. cbn [fst snd].
    split; [|split; [lia|]].
    + unfold too_large. apply andb_false_iff. right. apply Z.ltb_ge. lia.
    + rewrite Z.opp_involutive, Z.shiftr_div_pow2 by lia.
      symmetry. apply Z.div_unique_pos with (r := P - a * 2 ^ c); nia.
  - rewrite round53_large by lia. cbn [fst snd].
    set (k := Z.log2 P - 52) in *.
    assert (Hk1 : 1 <= k <= c - 3) by (unfold k; lia).
    set (K := 2 ^ k). set (D := 2 ^ (c - k)).
    assert (HK : 0 < K) by (apply Z.pow_pos_nonneg; lia).
    assert (HD : 8 <= D).
    { change 8 with (2 ^ 3). apply Z.pow_le_mono_r; lia. }
    assert (HCK : 2 ^ c = D * K).
    { unfold D, K. rewrite <- Z.pow_add_r by lia. f_equal. lia. }
    set (q := P / K). set (r := P mod K).
    assert (HPq : P = K * q + r) by (apply Z.div_mod; lia).
    assert (Hr : 0 <= r < K) by (apply Z.mod_pos_bound; lia).
    assert (Hq1 : a * D <= q) by nia.
    assert (Hq2 : q + 1 < (a + 1) * D) by nia.
    match goal with
    | |- context [if ?b then q + 1 else q] => set (q' := if b then q + 1 else q)
    end.
    assert (Hq' : q <= q' <= q + 1) by (unfold q'; match goal with |- context [if ?b then _ else _] => destruct b end; lia).
    split; [|split; [lia|]].
    + unfold too_large. apply andb_false_iff. right. apply Z.ltb_ge.
      assert (Hspec : 2 ^ Z.log2 P <= P < 2 ^ Z.succ (Z.log2 P))
        by (apply Z.log2_spec; lia).
      replace (Z.succ (Z.log2 P)) with (53 + k) in Hspec by (unfold k; lia).
      replace (Z.log2 P) with (52 + k) in Hspec by (unfold k; lia).
      rewrite !Z.pow_add_r in Hspec by lia. fold K in Hspec.
      assert (2 ^ 52 <= q < 2 ^ 53) by nia.
      assert (Z.log2 q' < 54); [|lia].
      apply Z.log2_lt_pow2; [lia|].
      change (2 ^ 54) with (2 * 2 ^ 53). lia.
    + replace (- (- c + k)) with (c - k) by lia.
      rewrite Z.shiftr_div_pow2 by lia. fold D.
      symmetry. apply Z.div_unique_pos with (r := q' - a * D); nia.
Qed.

(** A value just below a double rounds up to it. *)
Lemma round53_up (P c a j : Z) :
  53 < Z.log2 P + 1 ->
  Z.log2 P - 52 <= c ->
  P = a * 2 ^ c - j -> 0 < j -> 2 * j < 2 ^ (Z.log2 P - 52) ->
  round53 P (- c) = (a * 2 ^ (c - (Z.log2 P - 52)), - c + (Z.log2 P - 52)).
Proof.
  intros Hl Hkc HP Hj Hjk.
  rewrite round53_large by lia.
  set (k := Z.log2 P - 52) in *.
  assert (Hk : 1 <= k) by (unfold k; lia).
  set (K := 2 ^ k) in *. set (D := 2 ^ (c - k)).
  assert (HK : 0 < K) by (apply Z.pow_pos_nonneg; lia).
  assert (HCK : 2 ^ c = D * K).
  { unfold D, K. rewrite <- Z.pow_add_r by lia. f_equal. lia. }
  assert (Hhalf : K = 2 * 2 ^ (k - 1)).
  { unfold K. replace k with (1 + (k - 1)) at 1 by lia.
    rewrite Z.pow_add_r by lia. reflexivity. }
  assert (Hq : P / K = a * D - 1).
  { symmetry. apply Z.div_unique_pos with (r := K - j); nia. }
  assert (Hr : P mod K = K - j).
  { symmetry. apply Z.mod_unique_pos with (q := a * D - 1); nia. }
  rewrite Hq, Hr.
  assert (Hlt : (2 ^ (k - 1) <? K - j) = true) by (apply Z.ltb_lt; lia).
  rewrite Hlt. cbn [orb]. f_equal. lia.
Qed.

Lemma log2_bits (n b : Z) : 0 < n -> n < 2 ^ b -> 0 <= b -> Z.log2 n + 1 <= b.
Proof.
  intros Hn Hlt Hb.
  assert (Z.log2 n < b) by (apply Z.log2_lt_pow2; lia). lia.
Qed.

(** [int(n * 0.8)] is the integer part of [4 n / 5]. *)
Lemma int_mul_0_8_floor (n : Z) :
  0 <= n < 2 ^ 48 -> int_mul_0_8 n = Ok (4 * n / 5).
Proof.
  intros [H0 H48].
  destruct (Z.eq_dec n 0) as [->|Hn]; [reflexivity|].
  assert (Hpos : 0 < n) by lia.
  unfold int_mul_0_8, int_mul_float, c0_8. cbn [fst snd].
  rewrite Z.abs_eq by lia.
  assert (Hbits : Z.log2 n + 1 <= 48) by (apply log2_bits; lia).
  rewrite round53_small by lia.
  assert (Hfit : too_large n 0 = false).
  { unfold too_large. apply andb_false_iff. right. apply Z.ltb_ge. lia. }
  rewrite Hfit. change (0 + -53) with (- (53)).
  set (P := n * 7205759403792794).
  set (a := 4 * n / 5).
  assert (Ha : 5 * a <= 4 * n < 5 * a + 5).
  { unfold a. pose proof (Z.div_mod (4 * n) 5 ltac:(lia)).
    pose proof (Z.mod_pos_bound (4 * n) 5 ltac:(lia)). lia. }
  change (2 ^ 48) with 281474976710656 in H48.
  destruct (round53_floor P 53 a) as (Hfit2 & He & Hmag).
  - unfold P. lia.
  - lia.
  - lia.
  - change (2 ^ 53) with 9007199254740992. unfold P. lia.
  - change (2 ^ 53) with 9007199254740992. unfold P. lia.
  - assert (Z.log2 P + 1 <= 101); [|lia].
    apply log2_bits; [unfold P; lia| |lia].
    change (2 ^ 101) with (281474976710656 * 9007199254740992). unfold P. nia.
  - destruct (round53 P (- (53))) as [m2 e2]. cbn [fst snd] in *.
    rewrite Hfit2. apply Z.leb_gt in He. rewrite He, Hmag.
    rewrite Z.sgn_pos by lia. f_equal. lia.
Qed.

(** [int(n * 1.2)] is the integer part of [6 n / 5]. *)
Lemma int_mul_1_2_floor (n : Z) :
  0 <= n < 2 ^ 48 -> int_mul_1_2 n = Ok (6 * n / 5).
Proof.
  intros [H0 H48].
  destruct (Z.eq_dec n 0) as [->|Hn]; [reflexivity|].
  assert (Hpos : 0 < n) by lia.
  unfold int_mul_1_2, int_mul_float, c1_2. cbn [fst snd].
  rewrite Z.abs_eq by lia.
  assert (Hbits : Z.log2 n + 1 <= 48) by (apply log2_bits; lia).
  rewrite round53_small by lia.
  assert (Hfit : too_large n 0 = false).
  { unfold too_large. apply andb_false_iff. right. apply Z.ltb_ge. lia. }
  rewrite Hfit. change (0 + -52) with (- (52)).
  set (P := n * 5404319552844595).
  set (a := 6 * n / 5).
  pose proof (Z.div_mod (6 * n) 5 ltac:(lia)) as Hdm.
  pose proof (Z.mod_pos_bound (6 * n) 5 ltac:(lia)) as Hb.
  fold a in Hdm. set (b := (6 * n) mod 5) in *.
  change (2 ^ 48) with 281474976710656 in H48.
  assert (HP101 : Z.log2 P + 1 <= 101).
  { apply log2_bits; [unfold P; lia| |lia].
    change (2 ^ 101) with (281474976710656 * 9007199254740992). unfold P. nia. }
  rewrite Z.sgn_pos by lia.
  destruct (Z.eq_dec b 0) as [Hb0|Hb0].
  - (* 1.2 * n is an integer: the product is just below it and rounds up *)
    assert (Hj : exists j, n = 5 * j /\ a = 6 * j /\ 0 < j).
    { exists (a - n). lia. }
    destruct Hj as (j & Hnj & Haj & Hj0).
    assert (HPa : P = a * 2 ^ 52 - j).
    { change (2 ^ 52) with 4503599627370496. unfold P. lia. }
    assert (Hl : 53 < Z.log2 P + 1).
    { assert (53 <= Z.log2 P); [|lia].
      apply Z.log2_le_pow2; [unfold P; lia|].
      change (2 ^ 53) with 9007199254740992. unfold P. lia. }
    assert (Hspec : 2 ^ Z.log2 P <= P < 2 ^ Z.succ (Z.log2 P))
      by (apply Z.log2_spec; unfold P; lia).
    set (k := Z.log2 P - 52) in *.
    replace (Z.succ (Z.log2 P)) with (53 + k) in Hspec by (unfold k; lia).
    rewrite Z.pow_add_r in Hspec by (unfold k; lia).
    assert (HK : 0 < 2 ^ k) by (apply Z.pow_pos_nonneg; unfold k; lia).
    assert (Hjk : 2 * j < 2 ^ k).
    { change (2 ^ 53) with 9007199254740992 in Hspec.
      change (2 ^ 52) with 4503599627370496 in HPa. nia. }
    rewrite (round53_up P 52 a j) by (fold k; lia).
    fold k. cbv beta iota.
    assert (Hk48 : 1 <= k <= 48) by (unfold k; lia).
    set (D := 2 ^ (52 - k)).
    assert (HD : 0 < D) by (apply Z.pow_pos_nonneg; lia).
    assert (HDK : 2 ^ 52 = D * 2 ^ k).
    { unfold D. rewrite <- Z.pow_add_r by lia. f_equal. lia. }
    fold D.
    assert (Hfit2 : too_large (a * D) (- (52) + k) = false).
    { unfold too_large. apply andb_false_iff. right. apply Z.ltb_ge.
      assert (Z.log2 (a * D) < 54); [|lia].
      apply Z.log2_lt_pow2; [nia|].
      change (2 ^ 54) with (2 * 2 ^ 53).
      change (2 ^ 53) with 9007199254740992 in *.
      change (2 ^ 52) with 4503599627370496 in *. nia. }
    rewrite Hfit2.
    assert (He : (0 <=? - (52) + k) = false) by (apply Z.leb_gt; lia).
    rewrite He. replace (- (- (52) + k)) with (52 - k) by lia.
    rewrite Z.shiftr_div_pow2 by lia. fold D.
    rewrite Z.div_mul by lia. f_equal. lia.
  - destruct (round53_floor P 52 a) as (Hfit2 & He & Hmag).
    + unfold P. lia.
    + lia.
    + lia.
    + change (2 ^ 52) with 4503599627370496. unfold P. lia.
    + change (2 ^ 52) with 4503599627370496. unfold P. lia.
    + lia.
    + destruct (round53 P (- (52))) as [m2 e2]. cbn [fst snd] in *.
      rewrite Hfit2. apply Z.leb_gt in He. rewrite He, Hmag. f_equal. lia.
Qed.

(** ** The validator *)

Import SEOValidator.

Lemma In_append_if (c : bool) (e x : string) (l : list string) :
  In x (append_if c e l) <-> In x l \/ (c = true /\ x = e).
Proof.
  unfold append_if. destruct c.
  - rewrite in_app_iff. simpl. intuition.
  - intuition discriminate.
Qed.

(** The article as [validate] leaves it, whatever the outcome. *)
Lemma validate_article (article : Article.t) :
  snd (validate article)
  = Article.set_seo article
      (SEOInfo.set_estimated_word_count (Article.seo article)
         (word_count_of (Article.body_markdown article))).
Proof.
  unfold validate. cbn [Article.seo Article.set_seo SEOInfo.word_count_target
    SEOInfo.set_estimated_word_count].
  destruct (int_mul_0_8 _); [|reflexivity].
  destruct (int_mul_1_2 _); reflexivity.
Qed.

(** The errors of [validate], check by check. *)
Lemma validate_errors (article : Article.t) (min_words max_words : Z) :
  let seo := Article.seo article in
  let body := Article.body_markdown article in
  let kw := SEOInfo.primary_keyword seo in
  let target := SEOInfo.word_count_target seo in
  let h2 := _extract_headings body 2 in
  int_mul_0_8 target = Ok min_words ->
  int_mul_1_2 target = Ok max_words ->
  exists errors,
    fst (validate article) = Ok errors /\
    forall e, In e errors <->
      (str_in (lower kw) (lower (Article.h1 article)) = false
       /\ e = "Primary keyword '" ++ kw ++ "' not found in H1")
      \/ (str_in (lower kw) (lower (join " " (upto 150 (split body)))) = false
          /\ e = "Primary keyword '" ++ kw ++ "' not found in first 150 words")
      \/ (_check_keyword_match (lower kw) h2 = false /\ 0 < len h2
          /\ e = "Primary keyword '" ++ kw
                   ++ "' not found in any H2 heading (or close match)")
      \/ In e (band_errors (word_count_of body) min_words max_words target)
      \/ (len (_extract_headings body 1) <> 1
          /\ e = "Expected exactly 1 H1 heading, found "
                   ++ str (len (_extract_headings body 1)))
      \/ (len h2 < 3 /\ e = "Expected at least 3 H2 headings, found " ++ str (len h2))
      \/ (len (Article.internal_links article) < 3
          /\ e = too_few_internal_links (len (Article.internal_links article)))
      \/ (len (Article.external_references article) < 2
          /\ e = "Expected at least 2 external references, found "
                   ++ str (len (Article.external_references article))).
Proof.
  intros seo body kw target h2 Hmin Hmax.
  unfold validate.
  cbn [Article.seo Article.set_seo SEOInfo.word_count_target
       SEOInfo.set_estimated_word_count SEOInfo.primary_keyword
       Article.body_markdown Article.h1 Article.internal_links
       Article.external_references].
  fold seo body kw target h2. rewrite Hmin, Hmax. cbn [fst].
  eexists. split; [reflexivity|].
  intros e. unfold band_errors.
  destruct (word_count_of body <? min_words);
    [|destruct (max_words <? word_count_of body)];
    rewrite ?In_append_if, ?in_app_iff, ?In_append_if, ?andb_true_iff,
      ?negb_true_iff, ?Z.ltb_lt, ?Z.eqb_neq; simpl;
    intuition (subst; auto).
Qed.

(** C6: [validate] changes the article in one place only, the estimated word
    count of the SEO metadata, which becomes the number of whitespace-separated
    words of the body.  Every other field is as before, and the outcome is a
    function of the article alone: validating the article again gives the same
    outcome and changes nothing more. *)
Theorem validate_frame (article : Article.t) :
  let article' := snd (validate article) in
  let seo := Article.seo article in
  let seo' := Article.seo article' in
  SEOInfo.estimated_word_count seo' = Some (len (split (Article.body_markdown article)))
  /\ Article.h1 article' = Article.h1 article
  /\ Article.body_markdown article' = Article.body_markdown article
  /\ SEOInfo.title_tag seo' = SEOInfo.title_tag seo
  /\ SEOInfo.meta_description seo' = SEOInfo.meta_description seo
  /\ SEOInfo.primary_keyword seo' = SEOInfo.primary_keyword seo
  /\ SEOInfo.secondary_keywords seo' = SEOInfo.secondary_keywords seo
  /\ SEOInfo.word_count_target seo' = SEOInfo.word_count_target seo
  /\ Article.internal_links article' = Article.internal_links article
  /\ Article.external_references article' = Article.external_references article
  /\ Article.structured_data article' = Article.structured_data article
  /\ validate article' = (fst (validate article), article').
Proof.
  cbv zeta. rewrite validate_article.
  repeat (split; [reflexivity|]).
  destruct article as [h1 body [tt md pk sk target est] il er sd].
  unfold validate.
  cbn [Article.seo Article.set_seo SEOInfo.word_count_target
       SEOInfo.set_estimated_word_count SEOInfo.primary_keyword
       SEOInfo.title_tag SEOInfo.meta_description SEOInfo.secondary_keywords
       Article.body_markdown Article.h1 Article.internal_links
       Article.external_references Article.structured_data].
  destruct (int_mul_0_8 target); [|reflexivity].
  destruct (int_mul_1_2 target); reflexivity.
Qed.

Lemma below_minimum_is_band_error (w m t : Z) :
  is_band_error (below_minimum w m t) = true.
Proof. apply prefix_app. Qed.

Lemma exceeds_maximum_is_band_error (w m t : Z) :
  is_band_error (exceeds_maximum w m t) = true.
Proof. apply prefix_app. Qed.

(** C5, as the claim has it, fails: with target 6 the minimum is
    [int(6 * 0.8) = 4], so a body of four words passes the word-count check
    although 4 is below 0.8 * 6 = 4.8. *)
Lemma word_count_band_counterexample :
  ~ (forall (article : Article.t) (errors : list string),
       let t := SEOInfo.word_count_target (Article.seo article) in
       let w := word_count_of (Article.body_markdown article) in
       fst (validate article) = Ok errors ->
       ((forall e, In e errors -> is_band_error e = false)
        <-> 4 * t <= 5 * w /\ 5 * w <= 6 * t)).
Proof.
  intros H.
  specialize (H (sample_article 6 "Four word title" (words 4)) _ eq_refl).
  cbv zeta in H. destruct H as [H _].
  assert (4 * 6 <= 5 * 4 /\ 5 * 4 <= 6 * 6) as [Hlow _]; [|lia].
  apply H. intros e He. vm_compute in He.
  repeat (destruct He as [<-|He]; [reflexivity|]). destruct He.
Qed.

(** The word-count check of [validate], for the bounds that the two
    products give. *)
Lemma validate_band (article : Article.t) (min_words max_words : Z) :
  let target := SEOInfo.word_count_target (Article.seo article) in
  let w := word_count_of (Article.body_markdown article) in
  int_mul_0_8 target = Ok min_words ->
  int_mul_1_2 target = Ok max_words ->
  exists errors,
    fst (validate article) = Ok errors
    /\ ((forall e, In e errors -> is_band_error e = false)
        <-> min_words <= w <= max_words)
    /\ (w < min_words -> In (below_minimum w min_words target) errors)
    /\ (min_words <= w -> max_words < w ->
        In (exceeds_maximum w max_words target) errors)
    /\ (0 <= target < 2 ^ 48 ->
        min_words = 4 * target / 5 /\ max_words = 6 * target / 5)
    /\ (target = 1500 -> min_words = 1200 /\ max_words = 1800).
Proof.
  intros target w Hmin Hmax.
  destruct (validate_errors article min_words max_words Hmin Hmax)
    as (errors & Hv & Hin).
  fold target w in Hin.
  assert (Hb : forall e, In e (band_errors w min_words max_words target)
                         -> In e errors).
  { intros e He. apply Hin. tauto. }
  exists errors. split; [exact Hv|]. repeat split.
  - destruct (Z.ltb_spec w min_words) as [Hlt|Hge]; [|exact Hge].
    assert (Hf : is_band_error (below_minimum w min_words target) = false).
    { apply H, Hb. unfold band_errors.
      apply Z.ltb_lt in Hlt. rewrite Hlt. left. reflexivity. }
    rewrite below_minimum_is_band_error in Hf. discriminate.
  - destruct (Z.ltb_spec max_words w) as [Hlt|Hge]; [|exact Hge].
    destruct (Z.ltb_spec w min_words) as [Hlt'|Hge'].
    + assert (Hf : is_band_error (below_minimum w min_words target) = false).
      { apply H, Hb. unfold band_errors.
        apply Z.ltb_lt in Hlt'. rewrite Hlt'. left. reflexivity. }
      rewrite below_minimum_is_band_error in Hf. discriminate.
    + assert (Hf : is_band_error (exceeds_maximum w max_words target) = false).
      { apply H, Hb. unfold band_errors.
        apply Z.ltb_ge in Hge'. apply Z.ltb_lt in Hlt. rewrite Hge', Hlt.
        left. reflexivity. }
      rewrite exceeds_maximum_is_band_error in Hf. discriminate.
  - intros [Hlo Hhi] e He. apply Hin in He. unfold band_errors in He.
    apply Z.ltb_ge in Hlo, Hhi. rewrite Hlo, Hhi in He.
    destruct He as [[_ ->]|[[_ ->]|[(_ & _ & ->)|[[]|[[_ ->]|[[_ ->]|[[_ ->]|[_ ->]]]]]]]];
      reflexivity.
  - intros Hlt. apply Hb. unfold band_errors.
    apply Z.ltb_lt in Hlt. rewrite Hlt. left. reflexivity.
  - intros Hge Hlt. apply Hb. unfold band_errors.
    apply Z.ltb_ge in Hge. apply Z.ltb_lt in Hlt. rewrite Hge, Hlt.
    left. reflexivity.
  - rewrite (int_mul_0_8_floor target) in Hmin by lia. congruence.
  - rewrite (int_mul_1_2_floor target) in Hmax by lia. congruence.
  - rewrite H in Hmin. vm_compute in Hmin. congruence.
  - rewrite H in Hmax. vm_compute in Hmax. congruence.
Qed.

(** C5, amended: the bounds are [min_words = int(target * 0.8)] and
    [max_words = int(target * 1.2)], products of doubles truncated toward
    zero.  [validate] reports no word-count error exactly when
    [min_words <= w <= max_words], the "below minimum" error when
    [w < min_words] and the "exceeds maximum" error when [w > max_words].
    For a target below [2^48] the bounds are the integer parts of
    [0.8 * target] and [1.2 * target].  For a target of 1500 they are 1200 and
    1800: a body of 1199 words is below the minimum, bodies of 1200 and of
    1800 words pass, and a body of 1801 words exceeds the maximum. *)
Theorem word_count_band (article : Article.t) (min_words max_words : Z) :
  let target := SEOInfo.word_count_target (Article.seo article) in
  let w := word_count_of (Article.body_markdown article) in
  int_mul_0_8 target = Ok min_words ->
  int_mul_1_2 target = Ok max_words ->
  exists errors,
    fst (validate article) = Ok errors
    /\ ((forall e, In e errors -> is_band_error e = false)
        <-> min_words <= w <= max_words)
    /\ (w < min_words -> In (below_minimum w min_words target) errors)
    /\ (min_words <= w -> max_words < w ->
        In (exceeds_maximum w max_words target) errors)
    /\ (0 <= target < 2 ^ 48 ->
        min_words = 4 * target / 5 /\ max_words = 6 * target / 5)
    /\ (target = 1500 ->
        min_words = 1200 /\ max_words = 1800
        /\ (w = 1199 ->
            In "Word count 1199 is below minimum 1200 (80% of target 1500)" errors)
        /\ (w = 1200 \/ w = 1800 ->
            forall e, In e errors -> is_band_error e = false)
        /\ (w = 1801 ->
            In "Word count 1801 exceeds maximum 1800 (120% of target 1500)" errors)).
Proof.
  intros target w Hmin Hmax.
  destruct (validate_band article min_words max_words Hmin Hmax)
    as (errors & Hv & Hiff & Hlow & Hhigh & Hfloor & H1500).
  fold target w in Hiff, Hlow, Hhigh, Hfloor, H1500.
  exists errors.
  split; [exact Hv|]. split; [exact Hiff|]. split; [exact Hlow|].
  split; [exact Hhigh|]. split; [exact Hfloor|].
  intros Ht. destruct (H1500 Ht) as [-> ->].
  split; [reflexivity|]. split; [reflexivity|].
  split; [|split].
  - intros Hw. specialize (Hlow ltac:(lia)). rewrite Hw, Ht in Hlow. exact Hlow.
  - intros Hw. apply Hiff. lia.
  - intros Hw. specialize (Hhigh ltac:(lia) ltac:(lia)).
    rewrite Hw, Ht in Hhigh. exact Hhigh.
Qed.

Lemma word_count_band_witness :
  exists errors,
    fst (validate (sample_article 1500 "A word" (words 1199))) = Ok errors
    /\ In "Word count 1199 is below minimum 1200 (80% of target 1500)" errors.
Proof.
  destruct (word_count_band (sample_article 1500 "A word" (words 1199))
              1200 1800 eq_refl eq_refl) as (errors & Hv & _ & Hlow & _).
  exists errors. split; [exact Hv|].
  vm_compute in Hlow. apply Hlow. reflexivity.
Defined.

(** ** The link planner *)

Import LinkPlanner.

(** Once the condition of the [while] is false, more iterations change
    nothing. *)
Lemma backfill_more (n m : nat) (s : list InternalLinkSuggestion.t) :
  backfill_needed (backfill n s) = false ->
  backfill (n + m) s = backfill n s.
Proof.
  revert s. induction n as [|n IH]; intros s H; simpl in *.
  - destruct m; simpl; [reflexivity|]. rewrite H. reflexivity.
  - destruct (backfill_needed s) eqn:E; [apply IH; exact H | reflexivity].
Qed.

(** The suggestions before the slice: the pages that match, then the
    others; the [while] has run to its end. *)
Lemma internal_suggestions_spec (article : Article.t) (serp_analysis : SERPAnalysis.t) :
  internal_suggestions article serp_analysis
  = matched_then_rest (page_matches article serp_analysis)
  /\ backfill_needed (internal_suggestions article serp_analysis) = false.
Proof.
  unfold internal_suggestions, matched_then_rest, INTERNAL_PAGES.
  cbn [match_loop List.filter List.length].
  generalize (page_matches article serp_analysis). intros m.
  destruct (m (mkPage "seo-keyword-research-tools" "SEO keyword research tools"));
    destruct (m (mkPage "content-optimization-checklist" "content optimization checklist"));
    destruct (m (mkPage "remote-team-collaboration" "remote team collaboration tips"));
    split; reflexivity.
Qed.

Lemma backfill_done (article : Article.t) (serp_analysis : SERPAnalysis.t)
    (fuel : nat) :
  (List.length INTERNAL_PAGES <= fuel)%nat ->
  backfill fuel (match_loop article serp_analysis INTERNAL_PAGES [])
  = internal_suggestions article serp_analysis.
Proof.
  intros H.
  replace fuel with (List.length INTERNAL_PAGES + (fuel - List.length INTERNAL_PAGES))%nat
    by lia.
  apply backfill_more. apply internal_suggestions_spec.
Qed.

Lemma matched_then_rest_length (m : Page -> bool) :
  List.length (matched_then_rest m) = 3%nat.
Proof.
  unfold matched_then_rest, INTERNAL_PAGES. cbn [List.filter].
  destruct (m _); destruct (m _); destruct (m _); reflexivity.
Qed.

Lemma matched_then_rest_NoDup (m : Page -> bool) :
  List.NoDup (map InternalLinkSuggestion.target_slug (matched_then_rest m)).
Proof.
  unfold matched_then_rest, INTERNAL_PAGES. cbn [List.filter].
  destruct (m _); destruct (m _); destruct (m _); cbn;
    repeat (apply List.NoDup_cons; [cbn; intuition discriminate|]);
    apply List.NoDup_nil.
Qed.

Lemma plan_internal_links_spec (article : Article.t) (serp_analysis : SERPAnalysis.t) :
  plan_internal_links article serp_analysis
  = matched_then_rest (page_matches article serp_analysis).
Proof.
  unfold plan_internal_links, upto.
  rewrite (proj1 (internal_suggestions_spec article serp_analysis)).
  apply firstn_all2. rewrite matched_then_rest_length. lia.
Qed.

Lemma validate_ok_inv (article : Article.t) (errors : list string) :
  fst (validate article) = Ok errors ->
  exists min_words max_words,
    int_mul_0_8 (SEOInfo.word_count_target (Article.seo article)) = Ok min_words
    /\ int_mul_1_2 (SEOInfo.word_count_target (Article.seo article)) = Ok max_words.
Proof.
  unfold validate.
  cbn [Article.seo Article.set_seo SEOInfo.word_count_target
       SEOInfo.set_estimated_word_count].
  destruct (int_mul_0_8 _) as [mn|]; [|discriminate].
  destruct (int_mul_1_2 _) as [mx|]; [|discriminate].
  intros _. exists mn, mx. split; reflexivity.
Qed.

(** Two error texts that differ in their fixed part. *)
Ltac texts_differ H :=
  unfold too_few_internal_links, below_minimum, exceeds_maximum in H;
  simpl in H; discriminate H.

(** The internal-links error is reported only for fewer than three links. *)
Lemma too_few_internal_links_inv (article : Article.t) (errors : list string)
    (n : Z) :
  fst (validate article) = Ok errors ->
  In (too_few_internal_links n) errors ->
  len (Article.internal_links article) < 3.
Proof.
  intros Hv Hin.
  destruct (validate_ok_inv _ _ Hv) as (mn & mx & Hmin & Hmax).
  destruct (validate_errors article mn mx Hmin Hmax) as (errors' & Hv' & Hspec).
  rewrite Hv in Hv'. injection Hv' as <-.
  apply Hspec in Hin.
  destruct Hin as [[_ H]|[[_ H]|[(_ & _ & H)|[H|[[_ H]|[[_ H]|[[Hlt _]|[_ H]]]]]]]];
    try texts_differ H; [|exact Hlt].
  unfold band_errors in H.
  destruct (_ <? _); [|destruct (_ <? _)]; simpl in H;
    try contradiction; destruct H as [H|[]]; symmetry in H; texts_differ H.
Qed.

(** C10: the planner returns three suggestions with three different slugs,
    the pages that match first and the others after them in catalog order.
    The list has three entries before the slice to five, so the slice removes
    nothing; and on an article that carries these links the validator never
    reports too few internal links. *)
Theorem plan_internal_links_three (article : Article.t)
    (serp_analysis : SERPAnalysis.t) :
  let links := plan_internal_links article serp_analysis in
  List.length links = 3%nat
  /\ List.NoDup (map InternalLinkSuggestion.target_slug links)
  /\ links = matched_then_rest (page_matches article serp_analysis)
  /\ List.length (internal_suggestions article serp_analysis) = 3%nat
  /\ links = internal_suggestions article serp_analysis
  /\ (forall (article' : Article.t) (errors : list string) (n : Z),
        Article.internal_links article' = links ->
        fst (validate article') = Ok errors ->
        ~ In (too_few_internal_links n) errors).
Proof.
  cbv zeta. rewrite plan_internal_links_spec.
  rewrite (proj1 (internal_suggestions_spec article serp_analysis)).
  repeat split.
  - apply matched_then_rest_length.
  - apply matched_then_rest_NoDup.
  - apply matched_then_rest_length.
  - intros article' errors n Hlinks Hv Hin.
    pose proof (too_few_internal_links_inv _ _ _ Hv Hin) as Hlt.
    rewrite Hlinks in Hlt. unfold len in Hlt.
    rewrite matched_then_rest_length in Hlt. lia.
Qed.

Lemma plan_internal_links_three_witness :
  exists errors,
    fst (validate (Article.set_internal_links draft_article
                     (plan_internal_links draft_article sample_analysis)))
    = Ok errors
    /\ ~ In (too_few_internal_links 3) errors.
Proof.
  destruct (plan_internal_links_three draft_article sample_analysis)
    as (_ & _ & _ & _ & _ & H).
  eexists. split; [vm_compute; reflexivity|].
  apply (H (Article.set_internal_links draft_article
              (plan_internal_links draft_article sample_analysis)));
    reflexivity.
Defined.

(** C7, as the claim has it, fails: the title "Tipsy" has no word of any
    page topic as a word of its own and the analysis has no topics, yet the
    page on remote teams matches, through "tips" inside "tipsy", and is
    suggested first, ahead of the catalog order. *)
Lemma plan_internal_links_whole_word_counterexample :
  split (article_text_lower tipsy_article) = ["tipsy"]
  /\ SERPAnalysis.topics no_topics = []
  /\ (forall p kw, In p INTERNAL_PAGES -> In kw (page_keywords p) ->
      ~ In kw (split (article_text_lower tipsy_article)))
  /\ In "tips" (page_keywords page_remote)
  /\ page_matches tipsy_article no_topics page_remote = true
  /\ plan_internal_links tipsy_article no_topics
     = [suggestion page_remote; suggestion page_seo; suggestion page_content].
Proof.
  repeat split; try reflexivity.
  - intros p kw Hp Hkw Hin. vm_compute in Hin. destruct Hin as [<-|[]].
    vm_compute in Hp.
    destruct Hp as [<-|[<-|[<-|[]]]]; vm_compute in Hkw;
      repeat (destruct Hkw as [Hkw|Hkw]; [discriminate Hkw|]); destruct Hkw.
  - vm_compute. tauto.
Qed.

(** C7, amended: a page matches when one of the words of its topic occurs
    as a substring, in lower case, of an analysis topic or of the text
    [h1 + " " + body].  The result lists the pages that match and then the
    pages that do not, each group in catalog order. *)
Theorem plan_internal_links_substring (article : Article.t)
    (serp_analysis : SERPAnalysis.t) :
  plan_internal_links article serp_analysis
  = matched_then_rest (page_matches article serp_analysis)
  /\ forall page : Page,
       page_matches article serp_analysis page = true
       <-> exists kw,
             In kw (split (lower (topic page)))
             /\ ((exists t a b,
                     In t (SERPAnalysis.topics serp_analysis)
                     /\ lower t = a ++ kw ++ b)
                 \/ exists a b,
                      lower (Article.h1 article ++ " " ++ Article.body_markdown article)
                      = a ++ kw ++ b).
Proof.
  split; [apply plan_internal_links_spec|].
  intros page. unfold page_matches, matches_serp, matches_article,
    page_keywords, article_text_lower, set.
  rewrite orb_true_iff, !existsb_exists. split.
  - intros [(t & Ht & H)|(kw & Hkw & H)].
    + apply existsb_exists in H. destruct H as (kw & Hkw & H).
      apply nodup_In in Hkw. apply str_in_spec in H. destruct H as (a & b & H).
      exists kw. split; [exact Hkw|]. left. exists t, a, b. tauto.
    + apply nodup_In in Hkw. apply str_in_spec in H.
      exists kw. split; [exact Hkw|]. right. exact H.
  - intros (kw & Hkw & [(t & a & b & Ht & H)|H]).
    + left. exists t. split; [exact Ht|]. apply existsb_exists.
      exists kw. split; [apply nodup_In; exact Hkw|].
      apply str_in_spec. exists a, b. exact H.
    + right. exists kw. split; [apply nodup_In; exact Hkw|].
      apply str_in_spec. exact H.
Qed.

Lemma append_all_length {A : Type} (f : A -> ExternalReference.t) (xs : list A)
    (references : list ExternalReference.t) :
  List.length (append_all f xs references)
  = (List.length references + List.length xs)%nat.
Proof.
  unfold append_all. revert references.
  induction xs as [|x xs IH]; intros references; simpl; [lia|].
  rewrite IH, length_app. simpl. lia.
Qed.

(** At most four references are ever produced, so the slice to four removes
    nothing. *)
Lemma references_produced_length (serp_results : list SERPResult.t)
    (outline : Outline.t) :
  (List.length (references_produced serp_results outline) <= 4)%nat.
Proof.
  unfold references_produced, upto, len.
  set (selected := match List.filter is_authoritative serp_results with
                   | [] => firstn 4 serp_results
                   | _ :: _ => firstn 4 (List.filter is_authoritative serp_results)
                   end).
  assert (Hsel : (List.length selected <= 4)%nat).
  { unfold selected. destruct (List.filter _ _); apply firstn_le_length. }
  destruct (_ && _) eqn:E.
  - apply andb_true_iff in E. destruct E as [E _]. apply Z.ltb_lt in E.
    rewrite !append_all_length in *. simpl in *.
    pose proof (firstn_le_length
      (Z.to_nat (2 - Z.of_nat (0 + List.length selected)))
      (firstn 2 (List.filter
         (fun r => negb (mem (SERPResult.url r)
            (set (map ExternalReference.url
               (append_all (reference outline) selected [])))))
         serp_results))) as Hle.
    cbn [Nat.add] in Hle. lia.
  - rewrite append_all_length. simpl. exact Hsel.
Qed.

(** The list returned is in every case the list produced. *)
Lemma plan_external_references_all (serp_results : list SERPResult.t)
    (outline : Outline.t) :
  serp_results <> [] ->
  plan_external_references serp_results outline
  = references_produced serp_results outline.
Proof.
  intros Hne. unfold plan_external_references.
  destruct serp_results as [|r rest]; [congruence|].
  destruct (2 <=? _); [|reflexivity].
  apply firstn_all2. apply references_produced_length.
Qed.

(** C8: for a non-empty list of search results, the list returned is the
    first four of the references produced when at least two were produced,
    and the references produced, as they are, when fewer than two were. *)
Theorem plan_external_references_cap (serp_results : list SERPResult.t)
    (outline : Outline.t) :
  serp_results <> [] ->
  let produced := references_produced serp_results outline in
  let returned := plan_external_references serp_results outline in
  (2 <= len produced ->
   returned = firstn 4 produced /\ (List.length returned <= 4)%nat)
  /\ (len produced < 2 ->
      returned = produced /\ (List.length returned <= 1)%nat).
Proof.
  intros Hne produced returned. subst returned. unfold plan_external_references.
  destruct serp_results as [|r rest]; [congruence|].
  fold produced. split; intros H.
  - apply Z.leb_le in H. rewrite H. split; [reflexivity|].
    apply firstn_le_length.
  - pose proof H as H'. apply Z.leb_gt in H'. rewrite H'. split; [reflexivity|].
    unfold len in H. lia.
Qed.

Lemma plan_external_references_cap_witness :
  plan_external_references sample_results sample_outline
  = firstn 4 (references_produced sample_results sample_outline)
  /\ (List.length (plan_external_references sample_results sample_outline) <= 4)%nat.
Proof.
  apply (plan_external_references_cap sample_results sample_outline).
  - discriminate.
  - vm_compute. discriminate.
Defined.

(** ** Effects of the stages on the world *)

Lemma keeps_store_ret {A : Type} (a : A) : keeps_store (ret a).
Proof. intros w. split; reflexivity. Qed.

Lemma keeps_store_raise {A : Type} (msg : string) : keeps_store (@raise A msg).
Proof. intros w. split; reflexivity. Qed.

Lemma keeps_store_lift {A : Type} (r : Result A) : keeps_store (lift r).
Proof. intros w. split; reflexivity. Qed.

Lemma keeps_store_request {A : Type} (answer : list Call -> Call -> Result A)
    (c : Call) : keeps_store (request answer c).
Proof. intros w. split; reflexivity. Qed.

Lemma keeps_store_bind {A B : Type} (m : M A) (k : A -> M B) :
  keeps_store m -> (forall a, keeps_store (k a)) -> keeps_store (bind m k).
Proof.
  intros Hm Hk w. unfold bind. specialize (Hm w).
  destruct (m w) as [[a|msg] w1]; simpl in *.
  - destruct (Hk a w1) as [H1 H2]. destruct Hm as [H3 H4].
    rewrite H1, H2. split; assumption.
  - exact Hm.
Qed.

Lemma keeps_store_try_except {A : Type} (m : M A) (h : string -> M A) :
  keeps_store m -> (forall e, keeps_store (h e)) -> keeps_store (try_except m h).
Proof.
  intros Hm Hh w. unfold try_except. specialize (Hm w).
  destruct (m w) as [[a|msg] w1]; simpl in *.
  - exact Hm.
  - destruct (Hh msg w1) as [H1 H2]. destruct Hm as [H3 H4].
    rewrite H1, H2. split; assumption.
Qed.

Lemma keeps_store_for_each {A B : Type} (f : B -> A -> M B) (xs : list A) :
  (forall acc x, keeps_store (f acc x)) ->
  forall acc, keeps_store (for_each f xs acc).
Proof.
  intros Hf. induction xs as [|x xs IH]; intros acc; simpl.
  - apply keeps_store_ret.
  - apply keeps_store_bind; [apply Hf | exact IH].
Qed.

Create HintDb store.

#[local] Hint Resolve keeps_store_ret keeps_store_raise keeps_store_lift
  keeps_store_request keeps_store_bind keeps_store_try_except
  keeps_store_for_each : store.

Lemma keeps_store_search (env : Env) (lib : Lib) (self : SerpClient.t)
    (query : string) (limit : Z) :
  keeps_store (SerpClient.search env lib self query limit).
Proof.
  unfold SerpClient.search.
  apply keeps_store_try_except; [|auto with store].
  apply keeps_store_bind; [auto with store|]. intros results.
  apply keeps_store_for_each. intros acc [idx result].
  auto with store.
Qed.

Lemma keeps_store_generate_json (env : Env) (lib : Lib) (self : LLMClient.t)
    (prompt schema_hint : string) :
  keeps_store (LLMClient.generate_json env lib self prompt schema_hint).
Proof.
  unfold LLMClient.generate_json.
  apply keeps_store_bind; [auto with store|]. intros content.
  destruct (json_loads lib content); auto with store.
Qed.

Lemma keeps_store_generate_text (env : Env) (self : LLMClient.t) (prompt : string) :
  keeps_store (LLMClient.generate_text env self prompt).
Proof. unfold LLMClient.generate_text. auto with store. Qed.

#[local] Hint Resolve keeps_store_search keeps_store_generate_json
  keeps_store_generate_text : store.

(** No stage writes to the job store or reads the clock. *)
Lemma keeps_store_run (env : Env) (lib : Lib) (agent : Agents.Agent)
    (ctx : ArticleContext.t) : keeps_store (Agents.run env lib agent ctx).
Proof.
  destruct agent as [sc|llm|llm|llm|]; unfold Agents.run.
  - unfold Agents.SERPAgent_run.
    destruct (ArticleContext.serp_results ctx); auto with store.
  - unfold Agents.SERPAnalysisAgent_run.
    destruct (ArticleContext.serp_analysis ctx); auto 6 with store.
  - unfold Agents.OutlineAgent_run.
    destruct (ArticleContext.outline ctx); [auto with store|].
    destruct (ArticleContext.serp_analysis ctx); [|auto with store].
    apply keeps_store_bind; [auto with store|]. intros result.
    apply keeps_store_bind; [auto with store|]. intros outline.
    destruct (0 <? _); [auto with store|].
    destruct (_ <? 3); auto with store.
  - unfold Agents.DraftAgent_run.
    destruct (ArticleContext.article ctx); [auto with store|].
    destruct (ArticleContext.outline ctx); [|auto with store].
    destruct (ArticleContext.serp_analysis ctx); [|auto with store].
    repeat (apply keeps_store_bind; [auto with store|]; intros ?).
    auto with store.
  - unfold Agents.ValidationAgent_run.
    destruct (ArticleContext.article ctx); [|auto with store].
    destruct (ArticleContext.serp_analysis ctx); [|auto with store].
    destruct (validate _) as [outcome article'].
    apply keeps_store_bind; [auto with store|]. intros errors.
    destruct errors; auto with store.
Qed.

(** ** The runner on a finished job *)

(** C2: on a job whose status is [completed] or [failed], the runner returns
    at once: no stage runs, no request is made to a provider, the clock is not
    read, and the job store, with the status, the snapshots, the error message
    and the timestamps of every job, is as it was. *)
Theorem process_job_terminal (env : Env) (lib : Lib) (job_id : string)
    (services : Pipeline.Services) (w : World) (job : Job.t) :
  jobs w !! job_id = Some job ->
  Job.status job = JobStatus_.value completed
    \/ Job.status job = JobStatus_.value failed ->
  Pipeline.process_job env lib job_id services w = (Ok tt, w).
Proof.
  intros Hjob Hstatus.
  unfold Pipeline.process_job, bind, Orm.get_job. rewrite Hjob.
  destruct Hstatus as [-> | ->]; reflexivity.
Qed.

Lemma process_job_terminal_witness :
  Pipeline.process_job sample_env (sample_lib sample_outline) "job-1"
    sample_services (sample_world "failed")
  = (Ok tt, sample_world "failed").
Proof.
  apply (process_job_terminal _ _ _ _ _ (sample_job "failed")).
  - reflexivity.
  - right. reflexivity.
Defined.

(** ** The search stage *)

(** The loop of [search] numbers the results it appends from [k] on and has
    no effect on the world. *)
Lemma search_loop_spec (lib : Lib) (organic_results : list OrganicResult.t) :
  forall (k : Z) (acc found : list SERPResult.t) (w w' : World),
    for_each
      (fun serp_results '(idx, result) =>
         let! url := lift (HttpUrl lib (get_or_empty (OrganicResult.link result))) in
         ret (serp_results
                ++ [SERPResult.mk idx url
                      (get_or_empty (OrganicResult.title result))
                      (get_or_empty (OrganicResult.snippet result))])%list)
      (enumerate k organic_results) acc w = (Ok found, w') ->
    w' = w
    /\ exists added,
         found = (acc ++ added)%list
         /\ List.length added = List.length organic_results
         /\ ranked_from k added.
Proof.
  induction organic_results as [|o rest IH]; intros k acc found w w' H.
  - simpl in H. injection H as <- <-. split; [reflexivity|].
    exists []. rewrite app_nil_r. repeat split.
    intros i r Hi. destruct i; discriminate.
  - simpl in H. unfold bind at 1 in H. unfold bind at 1 in H.
    unfold lift at 1 in H.
    destruct (HttpUrl lib (get_or_empty (OrganicResult.link o))) as [url|e];
      [|discriminate].
    unfold ret at 1 in H.
    apply IH in H. destruct H as (-> & added & -> & Hlen & Hrank).
    split; [reflexivity|].
    eexists (_ :: added). rewrite <- app_assoc. split; [reflexivity|].
    split; [simpl; rewrite Hlen; reflexivity|].
    intros i r Hi. destruct i as [|i]; simpl in Hi.
    + injection Hi as <-. simpl. lia.
    + apply Hrank in Hi. rewrite Hi. lia.
Qed.

Lemma slice_to_length {A : Type} (n : Z) (l : list A) :
  0 <= n -> (List.length (slice_to n l) <= Z.to_nat n)%nat.
Proof.
  intros H. unfold slice_to. apply Z.leb_le in H. rewrite H.
  apply firstn_le_length.
Qed.

(** [search] sends one request, for [max(limit, 15)] results, and numbers
    what it returns 1, 2, 3, ... *)
Lemma search_spec (env : Env) (lib : Lib) (self : SerpClient.t) (query : string)
    (limit : Z) (w w' : World) (found : list SERPResult.t) :
  0 <= limit ->
  SerpClient.search env lib self query limit w = (Ok found, w') ->
  w' = record_call
         (SerpApiSearch query (SerpClient.api_key self) "google" (Z.max limit 15)) w
  /\ (List.length found <= Z.to_nat limit)%nat
  /\ ranked_from 1 found.
Proof.
  intros Hlimit H. unfold SerpClient.search, try_except in H.
  unfold bind at 1 in H. unfold request at 1 in H.
  destruct (serpapi_get_dict env (calls w) _) as [results|e];
    [|discriminate].
  match type of H with
  | match ?m with _ => _ end = _ => destruct m as [[found'|e] w1] eqn:E
  end; [|discriminate].
  injection H as H1 H2. subst found' w1.
  apply search_loop_spec in E. destruct E as (-> & added & -> & Hlen & Hrank).
  split; [reflexivity|]. simpl. rewrite Hlen.
  split; [apply slice_to_length; exact Hlimit | exact Hrank].
Qed.

Lemma ranked_from_firstn (k : Z) (n : nat) (results : list SERPResult.t) :
  ranked_from k results -> ranked_from k (firstn n results).
Proof.
  intros H i r Hi. apply H.
  clear H. revert n results Hi. induction i as [|i IH]; intros [|n] [|x l] Hi;
    simpl in *; try discriminate; [exact Hi | apply (IH n); exact Hi].
Qed.

Lemma SERPAgent_run_eq (env : Env) (lib : Lib) (serp_client : SerpClient.t)
    (ctx : ArticleContext.t) (w : World) :
  ArticleContext.serp_results ctx = [] ->
  Agents.SERPAgent_run env lib serp_client ctx w
  = match SerpClient.search env lib serp_client
            (ArticleJobCreate.topic (ArticleContext.input ctx)) 15 w with
    | (Ok found, w1) =>
        (Ok (ArticleContext.set_serp_results ctx (firstn 10 found)), w1)
    | (Raise e, w1) => (Raise e, w1)
    end.
Proof.
  intros Hempty. unfold Agents.SERPAgent_run. rewrite Hempty. unfold bind.
  destruct (SerpClient.search _ _ _ _ _ _) as [[found|e] w1]; reflexivity.
Qed.

(** The loop of [search] ends without exception when every link is accepted
    as a URL. *)
Lemma search_loop_succeeds (lib : Lib) (organic_results : list OrganicResult.t) :
  (forall o, In o organic_results ->
             exists url, HttpUrl lib (get_or_empty (OrganicResult.link o)) = Ok url) ->
  forall (k : Z) (acc : list SERPResult.t) (w : World),
    exists found,
      for_each
        (fun serp_results '(idx, result) =>
           let! url := lift (HttpUrl lib (get_or_empty (OrganicResult.link result))) in
           ret (serp_results
                  ++ [SERPResult.mk idx url
                        (get_or_empty (OrganicResult.title result))
                        (get_or_empty (OrganicResult.snippet result))])%list)
        (enumerate k organic_results) acc w = (Ok found, w).
Proof.
  induction organic_results as [|o rest IH]; intros Hurl k acc w.
  - exists acc. reflexivity.
  - destruct (Hurl o (or_introl eq_refl)) as [url Hu].
    simpl. unfold bind at 1. unfold bind at 1. unfold lift at 1. rewrite Hu.
    unfold ret at 1. apply IH. intros o' Ho'. apply Hurl. right. exact Ho'.
Qed.

(** The search stage returns a context whenever the provider answers and
    the links of the first fifteen results are accepted as URLs. *)
Lemma SERPAgent_run_succeeds (env : Env) (lib : Lib) (serp_client : SerpClient.t)
    (ctx : ArticleContext.t) (w : World)
    (answer : option (list OrganicResult.t)) :
  ArticleContext.serp_results ctx = [] ->
  serpapi_get_dict env (calls w)
    (SerpApiSearch (ArticleJobCreate.topic (ArticleContext.input ctx))
       (SerpClient.api_key serp_client) "google" 15)
  = Ok answer ->
  (forall o,
      In o (slice_to 15 (match answer with Some l => l | None => [] end)) ->
      exists url, HttpUrl lib (get_or_empty (OrganicResult.link o)) = Ok url) ->
  exists ctx' w',
    Agents.SERPAgent_run env lib serp_client ctx w = (Ok ctx', w').
Proof.
  intros Hempty Hanswer Hurl.
  rewrite (SERPAgent_run_eq _ _ _ _ _ Hempty).
  unfold SerpClient.search, try_except. unfold bind at 1. unfold request at 1.
  change (Z.max 15 15) with 15. rewrite Hanswer.
  destruct (search_loop_succeeds lib _ Hurl 1 []
              (record_call
                 (SerpApiSearch (ArticleJobCreate.topic (ArticleContext.input ctx))
                    (SerpClient.api_key serp_client) "google" 15) w))
    as [found Hfound].
  rewrite Hfound. eexists. eexists. reflexivity.
Qed.

(** C9: when the search stage runs on a context without search results, it
    sends one request, for 15 results, keeps the first 10 of the results the
    client returns, and these carry the ranks 1, 2, 3, ... in order: the
    entry at index [i] has rank [i + 1]. *)
Theorem SERPAgent_run_ranks (env : Env) (lib : Lib) (serp_client : SerpClient.t)
    (ctx ctx' : ArticleContext.t) (w w' : World) :
  ArticleContext.serp_results ctx = [] ->
  Agents.SERPAgent_run env lib serp_client ctx w = (Ok ctx', w') ->
  let results := ArticleContext.serp_results ctx' in
  let topic := ArticleJobCreate.topic (ArticleContext.input ctx) in
  (List.length results <= 10)%nat
  /\ (forall (i : nat) (r : SERPResult.t),
        nth_error results i = Some r -> SERPResult.rank r = Z.of_nat i + 1)
  /\ calls w'
     = (calls w ++ [SerpApiSearch topic (SerpClient.api_key serp_client) "google" 15])%list
  /\ exists found,
       SerpClient.search env lib serp_client topic 15 w = (Ok found, w')
       /\ (List.length found <= 15)%nat
       /\ ranked_from 1 found
       /\ results = firstn 10 found.
Proof.
  intros Hempty H results topic.
  rewrite (SERPAgent_run_eq _ _ _ _ _ Hempty) in H. fold topic in H.
  destruct (SerpClient.search env lib serp_client topic 15 w)
    as [[found|e] w1] eqn:E; [|discriminate].
  assert (Hres : results = firstn 10 found).
  { subst results. injection H as <- _. reflexivity. }
  assert (Hw : w1 = w') by (injection H; auto).
  subst w1. clearbody results. subst results. clear H.
  assert (H15 : 0 <= 15) by lia.
  destruct (search_spec _ _ _ _ _ _ _ _ H15 E) as (Hw & Hlen & Hrank).
  split; [apply firstn_le_length|].
  split.
  { intros i r Hi. apply (ranked_from_firstn 1 10) in Hrank.
    rewrite (Hrank i r Hi). lia. }
  split; [rewrite Hw; reflexivity|].
  exists found. repeat split; [exact Hlen | exact Hrank].
Qed.

Lemma SERPAgent_run_ranks_witness :
  exists ctx' w',
    Agents.SERPAgent_run sample_env (sample_lib sample_outline)
      (SerpClient.mk "serp-key") empty_context (sample_world "running")
    = (Ok ctx', w')
    /\ List.length (ArticleContext.serp_results ctx') = 10%nat
    /\ (forall (i : nat) (r : SERPResult.t),
          nth_error (ArticleContext.serp_results ctx') i = Some r ->
          SERPResult.rank r = Z.of_nat i + 1)
    /\ calls w' = [SerpApiSearch "words" "serp-key" "google" 15].
Proof.
  destruct (Agents.SERPAgent_run sample_env (sample_lib sample_outline)
              (SerpClient.mk "serp-key") empty_context (sample_world "running"))
    as [[ctx'|e] w'] eqn:E; [|vm_compute in E; discriminate E].
  exists ctx', w'. split; [reflexivity|].
  destruct (SERPAgent_run_ranks sample_env (sample_lib sample_outline)
              (SerpClient.mk "serp-key") empty_context ctx'
              (sample_world "running") w' eq_refl E) as (_ & Hr & Hc & _).
  split; [|split; [exact Hr | exact Hc]].
  vm_compute in E. injection E as <- _. reflexivity.
Defined.

(** ** The generation client *)

(** [generate_json] with a schema hint sends one request and parses the
    answer. *)
Lemma generate_json_eq (env : Env) (lib : Lib) (self : LLMClient.t)
    (prompt schema_hint : string) (w : World) :
  is_empty schema_hint = false ->
  LLMClient.generate_json env lib self prompt schema_hint w
  = (match chat_create env (calls w) (json_request self prompt schema_hint) with
     | Raise e => Raise ("OpenAI API call failed: " ++ e)
     | Ok content =>
         match json_loads lib content with
         | Ok v => Ok v
         | Raise e => Raise ("Failed to parse JSON response: " ++ e)
         end
     end,
     record_call (json_request self prompt schema_hint) w).
Proof.
  intros Hhint.
  unfold LLMClient.generate_json, bind, try_except, request, json_request.
  rewrite Hhint.
  destruct (chat_create env (calls w) _) as [content|e]; [|reflexivity].
  destruct (json_loads lib content); reflexivity.
Qed.

(** ** The analysis stage *)

(** C4, as the claim has it, fails: on a context without search results and
    without analysis the stage raises nothing; it sends its request to the
    generation provider and stores the analysis it gets. *)
Lemma analysis_without_results_counterexample :
  ArticleContext.serp_results empty_context = []
  /\ ArticleContext.serp_analysis empty_context = None
  /\ Agents.SERPAnalysisAgent_run sample_env (sample_lib sample_outline)
       sample_llm empty_context (sample_world "running")
     = (Ok (ArticleContext.set_serp_analysis empty_context (Some sample_analysis)),
        record_call
          (json_request sample_llm (Agents.analysis_prompt empty_context)
             Agents.analysis_schema_hint)
          (sample_world "running")).
Proof. repeat split. Qed.

(** The analysis stage on a context without analysis. *)
Lemma SERPAnalysisAgent_run_eq (env : Env) (lib : Lib) (llm_client : LLMClient.t)
    (ctx : ArticleContext.t) (w : World) :
  ArticleContext.serp_analysis ctx = None ->
  let request :=
    json_request llm_client (Agents.analysis_prompt ctx) Agents.analysis_schema_hint in
  Agents.SERPAnalysisAgent_run env lib llm_client ctx w
  = (match chat_create env (calls w) request with
     | Raise e => Raise ("OpenAI API call failed: " ++ e)
     | Ok content =>
         match json_loads lib content with
         | Raise e => Raise ("Failed to parse JSON response: " ++ e)
         | Ok result =>
             match SERPAnalysis_new lib result with
             | Raise e => Raise e
             | Ok analysis =>
                 Ok (ArticleContext.set_serp_analysis ctx (Some analysis))
             end
         end
     end,
     record_call request w).
Proof.
  intros Hanalysis request.
  unfold Agents.SERPAnalysisAgent_run. rewrite Hanalysis.
  unfold bind at 1. rewrite generate_json_eq by reflexivity. fold request.
  destruct (chat_create env (calls w) request) as [content|e]; [|reflexivity].
  destruct (json_loads lib content) as [result|e]; [|reflexivity].
  unfold bind, lift, ret.
  destruct (SERPAnalysis_new lib result); reflexivity.
Qed.

(** C4, amended: on a context without analysis the stage does not look at
    whether there are search results.  Without any, the part of the prompt
    that lists them is empty, the request is sent to the generation provider
    all the same, and the stage fails only when the call, the parsing of the
    answer or the construction of the analysis fails. *)
Theorem SERPAnalysisAgent_run_without_results (env : Env) (lib : Lib)
    (llm_client : LLMClient.t) (ctx : ArticleContext.t) (w : World) :
  ArticleContext.serp_results ctx = [] ->
  ArticleContext.serp_analysis ctx = None ->
  let request :=
    json_request llm_client (Agents.analysis_prompt ctx) Agents.analysis_schema_hint in
  let outcome := Agents.SERPAnalysisAgent_run env lib llm_client ctx w in
  Agents.serp_text (ArticleContext.serp_results ctx) = EmptyString
  /\ snd outcome = record_call request w
  /\ fst outcome
     = match chat_create env (calls w) request with
       | Raise e => Raise ("OpenAI API call failed: " ++ e)
       | Ok content =>
           match json_loads lib content with
           | Raise e => Raise ("Failed to parse JSON response: " ++ e)
           | Ok result =>
               match SERPAnalysis_new lib result with
               | Raise e => Raise e
               | Ok analysis =>
                   Ok (ArticleContext.set_serp_analysis ctx (Some analysis))
               end
           end
       end.
Proof.
  intros Hresults Hanalysis request outcome. subst outcome.
  split; [rewrite Hresults; reflexivity|].
  rewrite (SERPAnalysisAgent_run_eq _ _ _ _ _ Hanalysis). fold request.
  split; reflexivity.
Qed.

Lemma SERPAnalysisAgent_run_without_results_witness :
  fst (Agents.SERPAnalysisAgent_run sample_env (sample_lib sample_outline)
         sample_llm empty_context (sample_world "running"))
  = Ok (ArticleContext.set_serp_analysis empty_context (Some sample_analysis)).
Proof.
  destruct (SERPAnalysisAgent_run_without_results sample_env
              (sample_lib sample_outline) sample_llm empty_context
              (sample_world "running") eq_refl eq_refl) as (_ & _ & H).
  rewrite H. reflexivity.
Defined.

(** ** Stages whose output is already there *)

(** The validation stage, on a context with an article and an analysis:
    it plans the links again and runs the validator, without any effect on
    the world. *)
Lemma ValidationAgent_run_eq (ctx : ArticleContext.t) (article : Article.t)
    (serp_analysis : SERPAnalysis.t) (w : World) :
  ArticleContext.article ctx = Some article ->
  ArticleContext.serp_analysis ctx = Some serp_analysis ->
  Agents.ValidationAgent_run ctx w
  = (match validate (relinked ctx article serp_analysis) with
     | (Ok [], article') => Ok (ArticleContext.set_article ctx (Some article'))
     | (Ok errors, _) => Raise (Agents.validation_error_message errors)
     | (Raise e, _) => Raise e
     end, w).
Proof.
  intros Harticle Hanalysis. unfold Agents.ValidationAgent_run.
  rewrite Harticle, Hanalysis. fold (relinked ctx article serp_analysis).
  destruct (validate _) as [[errors|e] article']; [|reflexivity].
  destruct errors; reflexivity.
Qed.

(** C1, as the claim has it, fails for the validation stage: on a context
    with all four outputs present, whose article is as the draft stage left
    it, the stage plans the links and measures the word count, and returns a
    context that differs from the one it was given. *)
Lemma validation_stage_counterexample :
  ArticleContext.serp_results full_context <> []
  /\ ArticleContext.serp_analysis full_context <> None
  /\ ArticleContext.outline full_context <> None
  /\ ArticleContext.article full_context <> None
  /\ exists ctx',
       Agents.ValidationAgent_run full_context (sample_world "running")
       = (Ok ctx', sample_world "running")
       /\ ctx' <> full_context
       /\ (Article.internal_links <$> ArticleContext.article full_context) = Some []
       /\ (List.length <$> (Article.internal_links <$> ArticleContext.article ctx'))
          = Some 3%nat.
Proof.
  repeat (split; [discriminate|]).
  eexists. split; [vm_compute; reflexivity|].
  split; [discriminate|]. split; reflexivity.
Qed.

(** C1, amended: each of the four stages that produce an output (search,
    analysis, outline, draft) returns the context as it is, without any
    request and without any write, when its own output is present.  The
    validation stage has no output of its own and no such test: whenever it
    runs it plans the links again and runs the validator, so it may change the
    article or raise; it sends no request and writes nothing to the store. *)
Theorem stages_skip_when_populated (env : Env) (lib : Lib)
    (ctx : ArticleContext.t) (w : World) :
  (forall serp_client,
      ArticleContext.serp_results ctx <> [] ->
      Agents.run env lib (Agents.SERPAgent serp_client) ctx w = (Ok ctx, w))
  /\ (forall llm_client,
         ArticleContext.serp_analysis ctx <> None ->
         Agents.run env lib (Agents.SERPAnalysisAgent llm_client) ctx w = (Ok ctx, w))
  /\ (forall llm_client,
         ArticleContext.outline ctx <> None ->
         Agents.run env lib (Agents.OutlineAgent llm_client) ctx w = (Ok ctx, w))
  /\ (forall llm_client,
         ArticleContext.article ctx <> None ->
         Agents.run env lib (Agents.DraftAgent llm_client) ctx w = (Ok ctx, w))
  /\ snd (Agents.run env lib Agents.ValidationAgent ctx w) = w
  /\ (forall article serp_analysis,
         ArticleContext.article ctx = Some article ->
         ArticleContext.serp_analysis ctx = Some serp_analysis ->
         fst (Agents.run env lib Agents.ValidationAgent ctx w)
         = match validate (relinked ctx article serp_analysis) with
           | (Ok [], article') => Ok (ArticleContext.set_article ctx (Some article'))
           | (Ok errors, _) => Raise (Agents.validation_error_message errors)
           | (Raise e, _) => Raise e
           end).
Proof.
  repeat split.
  - intros serp_client H. simpl. unfold Agents.SERPAgent_run.
    destruct (ArticleContext.serp_results ctx); [congruence | reflexivity].
  - intros llm_client H. simpl. unfold Agents.SERPAnalysisAgent_run.
    destruct (ArticleContext.serp_analysis ctx); [reflexivity | congruence].
  - intros llm_client H. simpl. unfold Agents.OutlineAgent_run.
    destruct (ArticleContext.outline ctx); [reflexivity | congruence].
  - intros llm_client H. simpl. unfold Agents.DraftAgent_run.
    destruct (ArticleContext.article ctx); [reflexivity | congruence].
  - simpl. unfold Agents.ValidationAgent_run.
    destruct (ArticleContext.article ctx); [|reflexivity].
    destruct (ArticleContext.serp_analysis ctx); [|reflexivity].
    destruct (validate _) as [[errors|e] article']; [|reflexivity].
    destruct errors; reflexivity.
  - intros article serp_analysis Ha Hs. simpl.
    rewrite (ValidationAgent_run_eq _ _ _ _ Ha Hs). reflexivity.
Qed.

Lemma stages_skip_when_populated_witness :
  Agents.run sample_env (sample_lib sample_outline)
    (Agents.SERPAgent (SerpClient.mk "serp-key")) full_context (sample_world "running")
  = (Ok full_context, sample_world "running")
  /\ Agents.run sample_env (sample_lib sample_outline)
       (Agents.SERPAnalysisAgent sample_llm) full_context (sample_world "running")
     = (Ok full_context, sample_world "running")
  /\ Agents.run sample_env (sample_lib sample_outline)
       (Agents.OutlineAgent sample_llm) full_context (sample_world "running")
     = (Ok full_context, sample_world "running")
  /\ Agents.run sample_env (sample_lib sample_outline)
       (Agents.DraftAgent sample_llm) full_context (sample_world "running")
     = (Ok full_context, sample_world "running").
Proof.
  destruct (stages_skip_when_populated sample_env (sample_lib sample_outline)
              full_context (sample_world "running")) as (H1 & H2 & H3 & H4 & _).
  split; [apply H1; discriminate|].
  split; [apply H2; discriminate|].
  split; [apply H3; discriminate | apply H4; discriminate].
Defined.

(** ** The runner on a job that is not finished *)

Lemma update_found (env : Env) (job_id : string) (status : JobStatus)
    (serp_results : option (list SERPResult.t))
    (serp_analysis : option SERPAnalysis.t) (outline : option Outline.t)
    (article : option Article.t) (error_message : option string)
    (w : World) (job : Job.t) :
  jobs w !! job_id = Some job ->
  exists job',
    Orm.update_job_status_and_data env job_id status serp_results serp_analysis
      outline article error_message w
    = (Ok job', mkWorld (<[job_id := job']> (jobs w)) (S (clock w)) (calls w))
    /\ Job.status job' = JobStatus_.value status
    /\ Job.error_message job' = Orm.assign error_message (Job.error_message job).
Proof.
  intros Hjob. unfold Orm.update_job_status_and_data, bind, Orm.get_job.
  rewrite Hjob. eexists. split; [reflexivity|]. split; reflexivity.
Qed.

Lemma update_has_job (env : Env) (job_id : string) (status : JobStatus)
    (serp_results : option (list SERPResult.t))
    (serp_analysis : option SERPAnalysis.t) (outline : option Outline.t)
    (article : option Article.t) (error_message : option string) (w : World) :
  has_job job_id w ->
  has_job job_id
    (snd (Orm.update_job_status_and_data env job_id status serp_results
            serp_analysis outline article error_message w))
  /\ exists job',
       fst (Orm.update_job_status_and_data env job_id status serp_results
              serp_analysis outline article error_message w) = Ok job'.
Proof.
  intros [job Hjob].
  destruct (update_found env job_id status serp_results serp_analysis outline
              article error_message w job Hjob) as (job' & -> & _).
  split; [|exists job'; reflexivity].
  exists job'. simpl. apply lookup_insert_eq.
Qed.

Lemma persist_has_job (env : Env) (job_id : string) (agent : Agents.Agent)
    (ctx : ArticleContext.t) (w : World) :
  has_job job_id w ->
  has_job job_id (snd (Pipeline.persist env job_id agent ctx w))
  /\ fst (Pipeline.persist env job_id agent ctx w) = Ok tt.
Proof.
  intros Hjob. unfold Pipeline.persist, Pipeline.update.
  destruct ctx as [id inp results analysis outline article].
  destruct agent; [destruct results | destruct analysis | destruct outline
                   | destruct article | destruct article];
    try (split; [exact Hjob | reflexivity]);
    unfold bind;
    match goal with
    | |- context [Orm.update_job_status_and_data ?e ?i ?s ?a ?b ?c ?d ?m w] =>
        destruct (update_has_job e i s a b c d m w Hjob) as [H1 [job' H2]];
        destruct (Orm.update_job_status_and_data e i s a b c d m w) as [[j|msg] w1];
        simpl in *; [split; [exact H1 | reflexivity] | discriminate H2]
    end.
Qed.

Lemma keeps_store_has_job {A : Type} (m : M A) (job_id : string) (w : World) :
  keeps_store m -> has_job job_id w -> has_job job_id (snd (m w)).
Proof.
  intros Hm [job Hjob]. exists job. destruct (Hm w) as [-> _]. exact Hjob.
Qed.

Lemma run_agents_has_job (env : Env) (lib : Lib) (job_id : string)
    (agents : list Agents.Agent) :
  forall (ctx : ArticleContext.t) (w : World),
    has_job job_id w ->
    has_job job_id (snd (Pipeline.run_agents env lib job_id agents ctx w)).
Proof.
  induction agents as [|agent rest IH]; intros ctx w Hjob; simpl; [exact Hjob|].
  unfold bind at 1.
  pose proof (keeps_store_has_job _ job_id w (keeps_store_run env lib agent ctx) Hjob)
    as H1.
  destruct (Agents.run env lib agent ctx w) as [[ctx1|e] w1]; simpl in H1;
    [|exact H1].
  unfold bind at 1.
  destruct (persist_has_job env job_id agent ctx1 w1 H1) as [H2 H3].
  destruct (Pipeline.persist env job_id agent ctx1 w1) as [[[]|e] w2];
    simpl in *; [|discriminate H3].
  apply IH. exact H2.
Qed.

(** The loop over the stages, cut in two. *)
Lemma run_agents_app (env : Env) (lib : Lib) (job_id : string)
    (before after : list Agents.Agent) :
  forall (ctx : ArticleContext.t) (w : World),
    Pipeline.run_agents env lib job_id (before ++ after) ctx w
    = match Pipeline.run_agents env lib job_id before ctx w with
      | (Ok ctx', w') => Pipeline.run_agents env lib job_id after ctx' w'
      | (Raise e, w') => (Raise e, w')
      end.
Proof.
  induction before as [|agent rest IH]; intros ctx w; simpl; [reflexivity|].
  unfold bind at 1 3.
  destruct (Agents.run env lib agent ctx w) as [[ctx1|e] w1]; [|reflexivity].
  unfold bind at 1 2.
  destruct (Pipeline.persist env job_id agent ctx1 w1) as [[[]|e] w2];
    [apply IH | reflexivity].
Qed.

(** The runner when the loop over the stages raises. *)
Lemma process_job_raises (env : Env) (lib : Lib) (job_id : string)
    (services : Pipeline.Services) (w w2 : World) (job : Job.t) (msg : string) :
  jobs w !! job_id = Some job ->
  Job.status job <> JobStatus_.value completed ->
  Job.status job <> JobStatus_.value failed ->
  Job.language job = "en" ->
  Pipeline.run_agents env lib job_id (Pipeline.build_pipeline services)
    (Pipeline.rehydrate job_id job en)
    (snd (Pipeline.update env job_id running None None None None None w))
  = (Raise msg, w2) ->
  failed_with job_id (Pipeline.process_job env lib job_id services w) msg.
Proof.
  intros Hjob Hc Hf Hlang Hrun.
  assert (Hw2 : has_job job_id w2).
  { change w2 with (snd (@Raise ArticleContext.t msg, w2)). rewrite <- Hrun.
    apply run_agents_has_job. apply update_has_job. exists job. exact Hjob. }
  unfold Pipeline.process_job. unfold bind at 1. unfold Orm.get_job at 1.
  rewrite Hjob.
  apply String.eqb_neq in Hc, Hf. rewrite Hc, Hf.
  unfold bind at 1. unfold Pipeline.update in *.
  destruct (update_found env job_id running None None None None None w job Hjob)
    as (job1 & Hup & _).
  rewrite Hup in *. cbn [snd] in Hrun.
  unfold try_except. unfold bind at 1. rewrite Hlang. unfold lift at 1.
  cbn [Pipeline.Language_of String.eqb Ascii.eqb Bool.eqb].
  unfold bind at 1. rewrite Hrun.
  destruct Hw2 as [job2 Hjob2].
  destruct (update_found env job_id failed None None None None (Some msg) w2 job2
              Hjob2) as (job' & Hup' & Hstatus & Herr).
  unfold bind at 1. rewrite Hup'.
  split; [reflexivity|].
  exists job'. cbn [snd jobs]. split; [apply lookup_insert_eq|].
  split; [exact Hstatus | exact Herr].
Qed.

(** ** The outline stage *)

(** The outline stage on a context without outline, when the provider
    returns [outline]. *)
Lemma OutlineAgent_run_eq (env : Env) (lib : Lib) (llm_client : LLMClient.t)
    (ctx : ArticleContext.t) (serp_analysis : SERPAnalysis.t) (result : Json)
    (outline : Outline.t) (w w3 : World) :
  ArticleContext.outline ctx = None ->
  ArticleContext.serp_analysis ctx = Some serp_analysis ->
  LLMClient.generate_json env lib llm_client
    (Agents.outline_prompt ctx serp_analysis) Agents.outline_schema_hint w
  = (Ok result, w3) ->
  Outline_new lib result = Ok outline ->
  Agents.OutlineAgent_run env lib llm_client ctx w
  = (if 0 <? Agents.count_level 1 outline
     then Raise (Agents.h1_in_sections_error (Agents.count_level 1 outline))
     else if Agents.count_level 2 outline <? 3
     then Raise (Agents.h2_count_error (Agents.count_level 2 outline))
     else Ok (ArticleContext.set_outline ctx (Some outline)),
     w3).
Proof.
  intros Houtline Hanalysis Hjson Hnew.
  unfold Agents.OutlineAgent_run. rewrite Houtline, Hanalysis.
  unfold bind at 1. rewrite Hjson.
  unfold bind at 1. unfold lift at 1. rewrite Hnew.
  destruct (0 <? _); [reflexivity|].
  destruct (_ <? 3); reflexivity.
Qed.

Lemma h1_in_sections_error_H1 (n : Z) :
  str_in "H1" (Agents.h1_in_sections_error n) = true.
Proof. apply str_in_app_l. reflexivity. Qed.

Lemma h2_count_error_H2 (n : Z) : str_in "H2" (Agents.h2_count_error n) = true.
Proof. apply str_in_app_l. reflexivity. Qed.

(** C3, as the claim has it, fails when both conditions hold: for an
    outline whose only section has level 1 there are fewer than three sections
    of level 2, the job fails with the error about level 1, and that message
    does not contain "H2". *)
Lemma outline_contract_counterexample :
  0 < Agents.count_level 1 h1_outline
  /\ Agents.count_level 2 h1_outline < 3
  /\ failed_with "job-1"
       (Pipeline.process_job sample_env (sample_lib h1_outline) "job-1"
          sample_services (sample_world "pending"))
       (Agents.h1_in_sections_error 1)
  /\ str_in "H1" (Agents.h1_in_sections_error 1) = true
  /\ str_in "H2" (Agents.h1_in_sections_error 1) = false.
Proof.
  split; [reflexivity|]. split; [reflexivity|].
  split; [|split; reflexivity].
  split; [vm_compute; reflexivity|].
  eexists. split; [vm_compute; reflexivity|]. split; reflexivity.
Qed.

(** C3, amended: when the outline stage of a run receives an outline from
    the generation provider, the check for level 1 comes first.  If a section
    has level 1 the stage raises, the job ends [failed] and the stored error
    message contains "H1".  If no section has level 1 and fewer than three
    have level 2 the stage raises, the job ends [failed] and the stored error
    message contains "H2".  Otherwise the outline is stored in the context. *)
Theorem outline_contract (env : Env) (lib : Lib) (job_id : string)
    (services : Pipeline.Services) (w w2 w3 : World) (job : Job.t)
    (ctx : ArticleContext.t) (serp_analysis : SERPAnalysis.t) (result : Json)
    (outline : Outline.t) :
  jobs w !! job_id = Some job ->
  Job.status job <> JobStatus_.value completed ->
  Job.status job <> JobStatus_.value failed ->
  Job.language job = "en" ->
  Pipeline.run_agents env lib job_id (stages_before_outline services)
    (Pipeline.rehydrate job_id job en)
    (snd (Pipeline.update env job_id running None None None None None w))
  = (Ok ctx, w2) ->
  ArticleContext.outline ctx = None ->
  ArticleContext.serp_analysis ctx = Some serp_analysis ->
  LLMClient.generate_json env lib (Pipeline.llm_client services)
    (Agents.outline_prompt ctx serp_analysis) Agents.outline_schema_hint w2
  = (Ok result, w3) ->
  Outline_new lib result = Ok outline ->
  let h1_in_sections := Agents.count_level 1 outline in
  let h2_count := Agents.count_level 2 outline in
  let stage :=
    Agents.run env lib (Agents.OutlineAgent (Pipeline.llm_client services)) ctx w2 in
  let outcome := Pipeline.process_job env lib job_id services w in
  (0 < h1_in_sections ->
   stage = (Raise (Agents.h1_in_sections_error h1_in_sections), w3)
   /\ failed_with job_id outcome (Agents.h1_in_sections_error h1_in_sections)
   /\ str_in "H1" (Agents.h1_in_sections_error h1_in_sections) = true)
  /\ (h1_in_sections = 0 -> h2_count < 3 ->
      stage = (Raise (Agents.h2_count_error h2_count), w3)
      /\ failed_with job_id outcome (Agents.h2_count_error h2_count)
      /\ str_in "H2" (Agents.h2_count_error h2_count) = true)
  /\ (h1_in_sections = 0 -> 3 <= h2_count ->
      stage = (Ok (ArticleContext.set_outline ctx (Some outline)), w3)).
Proof.
  intros Hjob Hc Hf Hlang Hbefore Houtline Hanalysis Hjson Hnew
    h1_in_sections h2_count stage outcome.
  assert (Hstage : stage
    = (if 0 <? h1_in_sections
       then Raise (Agents.h1_in_sections_error h1_in_sections)
       else if h2_count <? 3
       then Raise (Agents.h2_count_error h2_count)
       else Ok (ArticleContext.set_outline ctx (Some outline)),
       w3)).
  { apply (OutlineAgent_run_eq _ _ _ _ _ _ _ _ _ Houtline Hanalysis Hjson Hnew). }
  assert (Hfail : forall msg, stage = (Raise msg, w3) -> failed_with job_id outcome msg).
  { intros msg Hmsg.
    apply (process_job_raises env lib job_id services w w3 job msg Hjob Hc Hf Hlang).
    change (Pipeline.build_pipeline services)
      with (stages_before_outline services ++ stages_from_outline services)%list.
    rewrite run_agents_app, Hbefore.
    unfold stages_from_outline. cbn [Pipeline.run_agents].
    unfold bind at 1. fold stage. rewrite Hmsg. reflexivity. }
  split; [|split].
  - intros H1. apply Z.ltb_lt in H1. rewrite H1 in Hstage.
    split; [exact Hstage|]. split; [apply Hfail, Hstage|].
    apply h1_in_sections_error_H1.
  - intros H1 H2. rewrite H1 in Hstage. apply Z.ltb_lt in H2.
    rewrite H2 in Hstage. cbn [Z.ltb Z.compare] in Hstage.
    split; [exact Hstage|]. split; [apply Hfail, Hstage|].
    apply h2_count_error_H2.
  - intros H1 H2. rewrite H1 in Hstage. apply Z.ltb_ge in H2.
    rewrite H2 in Hstage. exact Hstage.
Qed.

Lemma outline_contract_witness :
  failed_with "job-1"
    (Pipeline.process_job sample_env (sample_lib two_h2_outline) "job-1"
       sample_services (sample_world "pending"))
    (Agents.h2_count_error 2)
  /\ str_in "H2" (Agents.h2_count_error 2) = true.
Proof.
  edestruct (outline_contract sample_env (sample_lib two_h2_outline) "job-1"
               sample_services (sample_world "pending")) as (_ & H & _).
  - reflexivity.
  - discriminate.
  - discriminate.
  - reflexivity.
  - vm_compute. reflexivity.
  - reflexivity.
  - reflexivity.
  - vm_compute. reflexivity.
  - reflexivity.
  - destruct H as (_ & H1 & H2); [reflexivity | reflexivity |].
    split; [exact H1 | exact H2].
Defined.
